(** * Real-time orderbook monitor: a shallow embedding of
      [scripts/realtime_orderbook.py] and the properties of its reduction,
      alerting, history and tick pipeline.

    Numbers.  The script works on [Decimal] prices and amounts that it
    converts with [float(...)] before rounding.  The embedding idealises
    both as exact rationals ([Q]); two numbers are the same value when they
    are [Qeq]-equal ([==]).  Python's [int] is [Z].  The binary rounding of
    floats is not followed, so the statements below are the ones that do
    not depend on it; what is followed is where [round] and the number
    formats raise.

    Effects.  Methods of [RealtimeOrderbook] that mutate [self] are state
    transformers over the record [RealtimeOrderbook]; a raised Python
    exception is the [Raised] outcome, and a state change made before the
    exception is raised persists, as it does in Python.  The logger is
    external: what the script sends to it is collected in the [log] field. *)

From Stdlib Require Import ZArith QArith Qround Lqa Lia Bool List.
From Stdlib Require Import String Ascii Sorting.Sorted Morphisms Setoid.
From Stdlib Require Import Sorting.Permutation.
Import ListNotations.

Local Open Scope Z_scope.
Local Open Scope Q_scope.

(* ================================================================== *)
(** ** Python primitives used by the script                            *)
(* ================================================================== *)

Module Py.

(** Truthiness of a number: [0], [0.0] and [Decimal(0)] are falsy. *)
Definition truthy (q : Q) : bool := negb (Qeq_bool q 0).

(** Truthiness of an [Optional[float]]: [None] and zero are falsy. *)
Definition truthy_opt (o : option Q) : bool :=
  match o with
  | None => false
  | Some q => truthy q
  end.

(** Truthiness of a [str]: only the empty string is falsy. *)
Definition truthy_str (s : string) : bool :=
  match s with
  | EmptyString => false
  | String _ _ => true
  end.

(** [a < b] on numbers. *)
Definition ltb (a b : Q) : bool :=
  match Qcompare a b with
  | Lt => true
  | _ => false
  end.

(** Nearest integer, ties to the even one (the rule of [round]). *)
Definition round_half_even (q : Q) : Z :=
  let f := Qfloor q in
  match Qcompare (q - inject_Z f) (1 # 2) with
  | Lt => f
  | Gt => (f + 1)%Z
  | Eq => if Z.even f then f else (f + 1)%Z
  end.

(** [round(x, ndigits)]: to a multiple of [10 ** -ndigits]; a negative
    [ndigits] rounds to tens, hundreds, ... *)
Definition round (x : Q) (ndigits : Z) : Q :=
  let scale := inject_Z (10 ^ Z.abs ndigits) in
  if (0 <=? ndigits)%Z
  then inject_Z (round_half_even (x * scale)) / scale
  else inject_Z (round_half_even (x / scale)) * scale.

(** The absolute value. *)
Definition abs (x : Q) : Q := if Qle_bool 0 x then x else - x.

(** The first magnitude that is no finite float: the midpoint between
    the largest float and [2 ** 1024]. *)
Definition float_limit : Q := inject_Z (2 ^ 1024 - 2 ^ 970).

(** [round(x, ndigits)] raises [OverflowError] when [x] is a finite
    float and the rounded value is too large for one.  An infinite [x] is
    returned as it is, for [ndigits] below -308 [round] returns 0 without
    rounding, and a finite float cannot be rounded beyond the floats at
    [ndigits >= 0]. *)
Definition round_overflows (x : Q) (ndigits : Z) : bool :=
  (ndigits <? 0)%Z && (-308 <=? ndigits)%Z &&
  negb (Qle_bool float_limit (abs x)) &&
  Qle_bool float_limit (abs (round x ndigits)).

(** [xs[:n]]: the first [n] elements, or all but the last [-n] ones
    when [n] is negative. *)
Definition slice_to {A : Type} (n : Z) (xs : list A) : list A :=
  if (0 <=? n)%Z
  then firstn (Z.to_nat n) xs
  else firstn (List.length xs - Z.to_nat (- n))%nat xs.

(** [xs[-n:]] for a positive literal [n]: the last [n] elements. *)
Definition slice_last {A : Type} (n : nat) (xs : list A) : list A :=
  skipn (List.length xs - n)%nat xs.

(** [sorted(xs, key=key)] and [sorted(xs, key=key, reverse=True)]:
    a stable sort; with [reverse] the order of the keys is inverted and
    elements with equal keys still keep their original order. *)
Section Sorted.
Context {A : Type} (key : A -> Q) (reverse : bool).

(** [goes_before x y]: [x] may stand before [y] in the result. *)
Definition goes_before (x y : A) : bool :=
  if reverse then Qle_bool (key y) (key x) else Qle_bool (key x) (key y).

Fixpoint insert (x : A) (l : list A) : list A :=
  match l with
  | [] => [x]
  | y :: l' => if goes_before x y then x :: l else y :: insert x l'
  end.

Fixpoint sorted (l : list A) : list A :=
  match l with
  | [] => []
  | x :: l' => insert x (sorted l')
  end.
End Sorted.

(** [sum(...)] of numbers, starting from [0] and adding left to right. *)
Definition sum (xs : list Q) : Q := fold_left Qplus xs 0.

(** [s.lower()] on ASCII text. *)
Definition lower_char (c : ascii) : ascii :=
  let n := nat_of_ascii c in
  if (andb (65 <=? n)%nat (n <=? 90)%nat) then ascii_of_nat (n + 32) else c.

Fixpoint lower (s : string) : string :=
  match s with
  | EmptyString => EmptyString
  | String c s' => String (lower_char c) (lower s')
  end.

(** [kw in s] on strings: [kw] occurs as a contiguous substring. *)
Fixpoint contains (kw s : string) : bool :=
  if String.prefix kw s then true
  else match s with
       | EmptyString => false
       | String _ s' => contains kw s'
       end.

End Py.

(* ================================================================== *)
(** ** Exceptions and outcomes                                         *)
(* ================================================================== *)

(** Instances of Python's [Exception] class, the ones an
    [except Exception] clause catches. *)
Inductive Exception : Type :=
| ZeroDivisionError
| ValueError
| OverflowError
| ProviderError (description : string).

Inductive Outcome (A : Type) : Type :=
| Normal (value : A)
| Raised (e : Exception).
Arguments Normal {A} value.
Arguments Raised {A} e.

(** [a / b], which raises [ZeroDivisionError] on a zero divisor. *)
Definition py_div (a b : Q) : Outcome Q :=
  if Qeq_bool b 0 then Raised ZeroDivisionError else Normal (a / b).

Definition obind {A B : Type} (c : Outcome A) (k : A -> Outcome B) : Outcome B :=
  match c with
  | Normal a => k a
  | Raised e => Raised e
  end.

Notation "'let?' x ':=' c 'in' k" := (obind c (fun x => k))
  (at level 10, x pattern, c at level 100, k at level 200).

(* ================================================================== *)
(** ** Data model                                                      *)
(* ================================================================== *)

(** [class RealtimeOrderbookConfig]. *)
Record RealtimeOrderbookConfig : Type := mkConfig {
  connector : string;
  trading_pair : string;
  refresh_interval : Q;
  orderbook_depth : Z;
  connector_type : string;
  show_volumes : bool;
  show_spreads : bool;
  show_mid_price : bool;
  show_timestamps : bool;
  compact_display : bool;
  min_volume_filter : option Q;
  price_precision : Z;
  volume_precision : Z;
  log_to_file : bool;
  json_output : bool;
  csv_output : bool;
  output_file : option string;
  spread_alert_threshold : option Q;
  volume_alert_threshold : option Q
}.

(** The class attributes: what [RealtimeOrderbookConfig()] holds. *)
Definition default_config : RealtimeOrderbookConfig := {|
  connector := "binance_paper_trade";
  trading_pair := "ETH-USDT";
  refresh_interval := 1;
  orderbook_depth := 10;
  connector_type := "spot";
  show_volumes := true;
  show_spreads := true;
  show_mid_price := true;
  show_timestamps := true;
  compact_display := false;
  min_volume_filter := None;
  price_precision := 4;
  volume_precision := 4;
  log_to_file := true;
  json_output := false;
  csv_output := false;
  output_file := None;
  spread_alert_threshold := None;
  volume_alert_threshold := None
|}.

Definition set_connector_type (t : string) (c : RealtimeOrderbookConfig)
  : RealtimeOrderbookConfig :=
  mkConfig (connector c) (trading_pair c) (refresh_interval c)
    (orderbook_depth c) t (show_volumes c) (show_spreads c)
    (show_mid_price c) (show_timestamps c) (compact_display c)
    (min_volume_filter c) (price_precision c) (volume_precision c)
    (log_to_file c) (json_output c) (csv_output c) (output_file c)
    (spread_alert_threshold c) (volume_alert_threshold c).

Definition set_min_volume_filter (f : option Q) (c : RealtimeOrderbookConfig)
  : RealtimeOrderbookConfig :=
  mkConfig (connector c) (trading_pair c) (refresh_interval c)
    (orderbook_depth c) (connector_type c) (show_volumes c) (show_spreads c)
    (show_mid_price c) (show_timestamps c) (compact_display c)
    f (price_precision c) (volume_precision c)
    (log_to_file c) (json_output c) (csv_output c) (output_file c)
    (spread_alert_threshold c) (volume_alert_threshold c).

Definition set_spread_alert_threshold (t : option Q) (c : RealtimeOrderbookConfig)
  : RealtimeOrderbookConfig :=
  mkConfig (connector c) (trading_pair c) (refresh_interval c)
    (orderbook_depth c) (connector_type c) (show_volumes c) (show_spreads c)
    (show_mid_price c) (show_timestamps c) (compact_display c)
    (min_volume_filter c) (price_precision c) (volume_precision c)
    (log_to_file c) (json_output c) (csv_output c) (output_file c)
    t (volume_alert_threshold c).

Definition set_volume_alert_threshold (t : option Q) (c : RealtimeOrderbookConfig)
  : RealtimeOrderbookConfig :=
  mkConfig (connector c) (trading_pair c) (refresh_interval c)
    (orderbook_depth c) (connector_type c) (show_volumes c) (show_spreads c)
    (show_mid_price c) (show_timestamps c) (compact_display c)
    (min_volume_filter c) (price_precision c) (volume_precision c)
    (log_to_file c) (json_output c) (csv_output c) (output_file c)
    (spread_alert_threshold c) t.

(** [OrderBookRow] of the market-data provider. *)
Record OrderBookRow : Type := mkRow {
  price : Q;
  amount : Q;
  update_id : Z
}.

(** [OrderBook]: [snapshot] gives the two sides, each read through
    [.values()] in the order the provider holds them; reading it is a call
    into the provider and may raise. *)
Record OrderBook : Type := mkOrderBook {
  snapshot : Outcome (list OrderBookRow * list OrderBookRow)
}.

(** A connector of the provider: [get_order_book(trading_pair)] gives an
    order book, [None], or raises. *)
Record Connector : Type := mkConnector {
  get_order_book : string -> Outcome (option OrderBook)
}.

(** One processed level: the dict with keys ['price'], ['volume'], ['total']. *)
Record Level : Type := mkLevel {
  lv_price : Q;
  lv_volume : Q;
  lv_total : Q
}.

(** The dict returned by [process_orderbook]. *)
Record OrderbookData : Type := mkData {
  d_timestamp : Z;
  d_connector : string;
  d_trading_pair : string;
  d_bids : list Level;
  d_asks : list Level;
  d_best_bid : Q;
  d_best_ask : Q;
  d_mid_price : Q;
  d_spread : Q;
  d_spread_percent : Q;
  d_total_bid_volume : Q;
  d_total_ask_volume : Q;
  d_update_count : Z
}.

(** The log records the script hands to [self.logger()]. *)
Inductive LogLevel : Type := INFO | WARNING | ERROR.

Inductive Message : Type :=
| Text (line : string)
| TableTitle (time : option Z) (pair exchange : string)
| TableMetrics (mid : option Q) (spread : option (Q * Q))
| TableSideHeading (is_asks : bool) (total_volume : Q)
| TableColumns (price_pad volume_pad : Z)
| TableRow (row_price : Q) (row_volume : option Q) (row_total : Q)
| TableSpread (spread : Q)
| CompactLine (time : Z) (pair : string) (bid ask mid spread_pct : Q)
| JsonDocument (data : OrderbookData)
| CsvRow (data : OrderbookData)
| HighSpreadAlert (spread_pct threshold : Q)
| LowVolumeAlert (total_volume threshold : Q)
| ConnectorNotFound (name kind : string)
| GetOrderbookFailed (name : string) (e : Exception)
| NoOrderbookData (pair name : string)
| FetchError (e : Exception)
| MonitoringStopped.

Definition LogRecord : Type := (LogLevel * Message)%type.

(** The CSV header line of [display_csv_format]. *)
Definition csv_header : string :=
  "timestamp,connector,trading_pair,best_bid,best_ask,mid_price,spread,spread_percent,total_bid_volume,total_ask_volume".

(** [class RealtimeOrderbook]: the attributes set by [__init__], and the
    records sent to the logger so far (oldest first). *)
Record RealtimeOrderbook : Type := mkMonitor {
  config : RealtimeOrderbookConfig;
  markets : list (string * list string);
  derivative_markets : option (list (string * list string));
  last_update_time : option Z;
  update_count : Z;
  is_running : bool;
  orderbook_history : list OrderbookData;
  log : list LogRecord
}.

(** What a tick reads from outside the monitor: the connector tables the
    framework attaches to the strategy ([derivative_connectors] may be
    absent), and the two readings of [datetime.now()]. *)
Record Environment : Type := mkEnv {
  connectors : list (string * Connector);
  derivative_connectors : option (list (string * Connector));
  now_process : Z;
  now_update : Z
}.

(** [d.get(k)] on a dict held as an association list. *)
Fixpoint dict_get {V : Type} (d : list (string * V)) (k : string) : option V :=
  match d with
  | [] => None
  | (k', v) :: d' => if String.eqb k' k then Some v else dict_get d' k
  end.

(* ================================================================== *)
(** ** [_detect_connector_type]                                        *)
(* ================================================================== *)

Definition perpetual_keywords : list string :=
  [ "perpetual"; "perp"; "futures"; "derivative"; "dydx"; "hyperliquid";
    "binance_perpetual"; "bybit_perpetual"; "okx_perpetual";
    "kucoin_perpetual" ]%string.

(** The [for keyword in perpetual_keywords] loop: [Some "perpetual"] at
    the first keyword found in the lowered name (the loop returns there),
    [None] when the loop runs to its end. *)
Fixpoint detect_by_keyword (keywords : list string) (connector_lower : string)
  : option string :=
  match keywords with
  | [] => None
  | keyword :: rest =>
      if Py.contains keyword connector_lower
      then Some "perpetual"%string
      else detect_by_keyword rest connector_lower
  end.

(** [_detect_connector_type], as a function of the configuration object
    it updates. *)
Definition _detect_connector_type (cfg : RealtimeOrderbookConfig)
  : RealtimeOrderbookConfig :=
  let connector_lower := Py.lower (connector cfg) in
  if Py.truthy_str (connector_type cfg) then cfg
  else match detect_by_keyword perpetual_keywords connector_lower with
       | Some t => set_connector_type t cfg
       | None => set_connector_type "spot" cfg
       end.

(* ================================================================== *)
(** ** [process_orderbook]                                             *)
(* ================================================================== *)

(** The dict appended for one row when its three calls of [round]
    return; [float(...)] is the identity on the idealised numbers. *)
Definition make_level (cfg : RealtimeOrderbookConfig) (r : OrderBookRow) : Level :=
  {| lv_price := Py.round (price r) (price_precision cfg);
     lv_volume := Py.round (amount r) (volume_precision cfg);
     lv_total := Py.round (price r * amount r) (volume_precision cfg) |}.

(** The test guarding [continue]. *)
Definition filtered_out (cfg : RealtimeOrderbookConfig) (r : OrderBookRow) : bool :=
  match min_volume_filter cfg with
  | None => false
  | Some threshold => Py.truthy threshold && Py.ltb (amount r) threshold
  end.

(** The list built by the body of either [for] loop over the rows it
    iterates on, when every [round] returns; [processed] is the list
    built so far. *)
Fixpoint process_rows (cfg : RealtimeOrderbookConfig)
    (rows : list OrderBookRow) (processed : list Level) : list Level :=
  match rows with
  | [] => processed
  | r :: rest =>
      if filtered_out cfg r
      then process_rows cfg rest processed
      else process_rows cfg rest (processed ++ [make_level cfg r])
  end.

(** One side as a list: [reverse = true] for the bids, [false] for the
    asks. *)
Definition process_side (cfg : RealtimeOrderbookConfig) (reverse : bool)
    (rows : list OrderBookRow) : list Level :=
  process_rows cfg
    (Py.slice_to (orderbook_depth cfg) (Py.sorted price reverse rows)) [].

(** One of the three calls of [round] for the row overflows. *)
Definition level_overflows (cfg : RealtimeOrderbookConfig) (r : OrderBookRow) : bool :=
  Py.round_overflows (price r) (price_precision cfg)
  || Py.round_overflows (amount r) (volume_precision cfg)
  || Py.round_overflows (price r * amount r) (volume_precision cfg).

(** The three calls of [round] for one row: [OverflowError] when one of
    them overflows, the dict of the row otherwise. *)
Definition round_level (cfg : RealtimeOrderbookConfig) (r : OrderBookRow)
  : Outcome Level :=
  if level_overflows cfg r
  then Raised OverflowError
  else Normal (make_level cfg r).

(** Either [for] loop as it runs: it is left at the first row whose
    rounding raises; when it runs to its end it has built the list of
    [process_rows]. *)
Fixpoint loop_rows (cfg : RealtimeOrderbookConfig)
    (rows : list OrderBookRow) (processed : list Level) : Outcome (list Level) :=
  match rows with
  | [] => Normal processed
  | r :: rest =>
      if filtered_out cfg r
      then loop_rows cfg rest processed
      else let? level := round_level cfg r in
           loop_rows cfg rest (processed ++ [level])
  end.

Definition loop_side (cfg : RealtimeOrderbookConfig) (reverse : bool)
    (rows : list OrderBookRow) : Outcome (list Level) :=
  loop_rows cfg
    (Py.slice_to (orderbook_depth cfg) (Py.sorted price reverse rows)) [].

Definition first_price (levels : list Level) : Q :=
  match levels with
  | [] => 0
  | l :: _ => lv_price l
  end.

Definition process_orderbook (self : RealtimeOrderbook) (now : Z)
    (orderbook : OrderBook) : Outcome OrderbookData :=
  let cfg := config self in
  let? (bids, asks) := snapshot orderbook in
  let? processed_bids := loop_side cfg true bids in
  let? processed_asks := loop_side cfg false asks in
  let best_bid := first_price processed_bids in
  let best_ask := first_price processed_asks in
  let? mid_price :=
    if Py.truthy best_bid && Py.truthy best_ask
    then py_div (best_bid + best_ask) 2
    else Normal 0 in
  let spread :=
    if Py.truthy best_bid && Py.truthy best_ask
    then best_ask - best_bid
    else 0 in
  let? spread_percent :=
    if Py.ltb 0 mid_price
    then let? ratio := py_div spread mid_price in Normal (ratio * 100)
    else Normal 0 in
  let total_bid_volume := Py.sum (map lv_volume processed_bids) in
  let total_ask_volume := Py.sum (map lv_volume processed_asks) in
  Normal {| d_timestamp := now;
            d_connector := connector cfg;
            d_trading_pair := trading_pair cfg;
            d_bids := processed_bids;
            d_asks := processed_asks;
            d_best_bid := best_bid;
            d_best_ask := best_ask;
            d_mid_price := mid_price;
            d_spread := spread;
            d_spread_percent := spread_percent;
            d_total_bid_volume := total_bid_volume;
            d_total_ask_volume := total_ask_volume;
            d_update_count := update_count self |}.

(* ================================================================== *)
(** ** The monitor's methods as state transformers                     *)
(* ================================================================== *)

Definition M (A : Type) : Type :=
  RealtimeOrderbook -> Outcome A * RealtimeOrderbook.

Definition ret {A : Type} (a : A) : M A := fun self => (Normal a, self).

Definition bind {A B : Type} (c : M A) (k : A -> M B) : M B :=
  fun self =>
    match c self with
    | (Normal a, self') => k a self'
    | (Raised e, self') => (Raised e, self')
    end.

Notation "x <- c ;; k" := (bind c (fun x => k))
  (at level 61, c at next level, right associativity).
Notation "c ;;; k" := (bind c (fun _ => k))
  (at level 61, right associativity).

(** An expression that may raise, evaluated inside a method. *)
Definition lift {A : Type} (o : Outcome A) : M A := fun self => (o, self).

Definition get_self : M RealtimeOrderbook := fun self => (Normal self, self).

(** [try: body except Exception as e: handler(e)]. *)
Definition try_except {A : Type} (body : M A) (handler : Exception -> M A) : M A :=
  fun self =>
    match body self with
    | (Normal a, self') => (Normal a, self')
    | (Raised e, self') => handler e self'
    end.

(** [for x in xs: body(x)]. *)
Fixpoint for_each {A : Type} (xs : list A) (body : A -> M unit) : M unit :=
  match xs with
  | [] => ret tt
  | x :: rest => body x ;;; for_each rest body
  end.

Definition set_log (l : list LogRecord) (self : RealtimeOrderbook) : RealtimeOrderbook :=
  mkMonitor (config self) (markets self) (derivative_markets self)
    (last_update_time self) (update_count self) (is_running self)
    (orderbook_history self) l.

Definition set_update_count (n : Z) (self : RealtimeOrderbook) : RealtimeOrderbook :=
  mkMonitor (config self) (markets self) (derivative_markets self)
    (last_update_time self) n (is_running self)
    (orderbook_history self) (log self).

Definition set_last_update_time (t : option Z) (self : RealtimeOrderbook)
  : RealtimeOrderbook :=
  mkMonitor (config self) (markets self) (derivative_markets self)
    t (update_count self) (is_running self)
    (orderbook_history self) (log self).

Definition set_orderbook_history (h : list OrderbookData) (self : RealtimeOrderbook)
  : RealtimeOrderbook :=
  mkMonitor (config self) (markets self) (derivative_markets self)
    (last_update_time self) (update_count self) (is_running self)
    h (log self).

Definition set_is_running (b : bool) (self : RealtimeOrderbook) : RealtimeOrderbook :=
  mkMonitor (config self) (markets self) (derivative_markets self)
    (last_update_time self) (update_count self) b
    (orderbook_history self) (log self).

Definition modify (f : RealtimeOrderbook -> RealtimeOrderbook) : M unit :=
  fun self => (Normal tt, f self).

(** [self.logger().info(...)], [.warning(...)], [.error(...)]. *)
Definition logger (level : LogLevel) (msg : Message) : M unit :=
  modify (fun self => set_log (log self ++ [(level, msg)]) self).

(** [f"{x:.{precision}f}"]: the number shown.  A negative precision is
    not a valid format specification and a precision of 2**31 or more is
    too big for one: both raise [ValueError]. *)
Definition format_fixed (x : Q) (precision : Z) : Outcome Q :=
  if (precision <? 0)%Z || (2 ^ 31 <=? precision)%Z
  then Raised ValueError
  else Normal x.

Fixpoint string_repeat (s : string) (n : nat) : string :=
  match n with
  | O => EmptyString
  | S n' => (s ++ string_repeat s n')%string
  end.

(** One row of the full table. *)
Definition display_row (cfg : RealtimeOrderbookConfig) (l : Level) : M unit :=
  price_str <- lift (format_fixed (lv_price l) (price_precision cfg)) ;;
  volume_str <- (if show_volumes cfg
                 then v <- lift (format_fixed (lv_volume l) (volume_precision cfg)) ;;
                      ret (Some v)
                 else ret None) ;;
  logger INFO (TableRow price_str volume_str (lv_total l)).

Definition display_full_table (data : OrderbookData) : M unit :=
  self <- get_self ;;
  let cfg := config self in
  let separator := string_repeat "=" 80 in
  let columns :=
    TableColumns (price_precision cfg + 8) (volume_precision cfg + 6) in
  logger INFO (Text separator) ;;;
  logger INFO (TableTitle
                 (if show_timestamps cfg then Some (d_timestamp data) else None)
                 (d_trading_pair data) (d_connector data)) ;;;
  (if show_mid_price cfg || show_spreads cfg
   then
     mid <- (if show_mid_price cfg
             then m <- lift (format_fixed (d_mid_price data) (price_precision cfg)) ;;
                  ret (Some m)
             else ret None) ;;
     spr <- (if show_spreads cfg
             then s <- lift (format_fixed (d_spread data) (price_precision cfg)) ;;
                  ret (Some (s, d_spread_percent data))
             else ret None) ;;
     logger INFO (TableMetrics mid spr)
   else ret tt) ;;;
  total_ask <- lift (format_fixed (d_total_ask_volume data) (volume_precision cfg)) ;;
  logger INFO (TableSideHeading true total_ask) ;;;
  logger INFO columns ;;;
  logger INFO (Text (string_repeat "-" 60)) ;;;
  for_each (rev (Py.slice_last 5 (d_asks data))) (display_row cfg) ;;;
  spread_str <- lift (format_fixed (d_spread data) (price_precision cfg)) ;;
  logger INFO (TableSpread spread_str) ;;;
  total_bid <- lift (format_fixed (d_total_bid_volume data) (volume_precision cfg)) ;;
  logger INFO (TableSideHeading false total_bid) ;;;
  logger INFO columns ;;;
  logger INFO (Text (string_repeat "-" 60)) ;;;
  for_each (firstn 5 (d_bids data)) (display_row cfg) ;;;
  logger INFO (Text separator).

Definition display_compact_table (data : OrderbookData) : M unit :=
  self <- get_self ;;
  let cfg := config self in
  bid <- lift (format_fixed (d_best_bid data) (price_precision cfg)) ;;
  ask <- lift (format_fixed (d_best_ask data) (price_precision cfg)) ;;
  mid <- lift (format_fixed (d_mid_price data) (price_precision cfg)) ;;
  logger INFO (CompactLine (d_timestamp data) (d_trading_pair data)
                 bid ask mid (d_spread_percent data)).

Definition display_table_format (data : OrderbookData) : M unit :=
  self <- get_self ;;
  if compact_display (config self)
  then display_compact_table data
  else display_full_table data.

Definition display_json_format (data : OrderbookData) : M unit :=
  logger INFO (JsonDocument data).

Definition display_csv_format (data : OrderbookData) : M unit :=
  self <- get_self ;;
  (if (update_count self =? 1)%Z
   then logger INFO (Text csv_header)
   else ret tt) ;;;
  logger INFO (CsvRow data).

(** The local list [alerts] of [check_alerts], in the order it is built. *)
Definition alerts_of (cfg : RealtimeOrderbookConfig) (data : OrderbookData)
  : list Message :=
  let alerts := [] in
  let alerts :=
    match spread_alert_threshold cfg with
    | Some threshold =>
        if Py.truthy threshold && Py.ltb threshold (d_spread_percent data)
        then alerts ++ [HighSpreadAlert (d_spread_percent data) threshold]
        else alerts
    | None => alerts
    end in
  let alerts :=
    match volume_alert_threshold cfg with
    | Some threshold =>
        if Py.truthy threshold
        then
          let total_volume := d_total_bid_volume data + d_total_ask_volume data in
          if Py.ltb total_volume threshold
          then alerts ++ [LowVolumeAlert total_volume threshold]
          else alerts
        else alerts
    | None => alerts
    end in
  alerts.

Definition check_alerts (data : OrderbookData) : M unit :=
  self <- get_self ;;
  for_each (alerts_of (config self) data) (fun alert => logger WARNING alert).

(** Lines 200-202: the length test, [pop(0)] and [append]. *)
Definition store_history (data : OrderbookData) (history : list OrderbookData)
  : list OrderbookData :=
  let history :=
    if (100 <? List.length history)%nat then tl history else history in
  history ++ [data].

(** The first statement of [fetch_and_display_orderbook] and of
    [get_orderbook_snapshot]: the connector taken from the table of its
    kind, [None] when it is not there. *)
Definition find_connector (env : Environment) (cfg : RealtimeOrderbookConfig)
  : option Connector :=
  if String.eqb (connector_type cfg) "perpetual"
  then match derivative_connectors env with
       | Some table => dict_get table (connector cfg)
       | None => None
       end
  else dict_get (connectors env) (connector cfg).

Definition fetch_and_display_orderbook (env : Environment) : M unit :=
  self <- get_self ;;
  let cfg := config self in
  match find_connector env cfg with
  | None =>
      logger ERROR (ConnectorNotFound (connector cfg) (connector_type cfg))
  | Some conn =>
      match get_order_book conn (trading_pair cfg) with
      | Raised e => logger ERROR (GetOrderbookFailed (connector cfg) e)
      | Normal None =>
          logger WARNING (NoOrderbookData (trading_pair cfg) (connector cfg))
      | Normal (Some orderbook) =>
          orderbook_data <- lift (process_orderbook self (now_process env) orderbook) ;;
          (if json_output cfg then display_json_format orderbook_data
           else if csv_output cfg then display_csv_format orderbook_data
           else display_table_format orderbook_data) ;;;
          check_alerts orderbook_data ;;;
          modify (fun s => set_update_count (update_count s + 1) s) ;;;
          modify (set_last_update_time (Some (now_update env))) ;;;
          modify (fun s =>
                    set_orderbook_history
                      (store_history orderbook_data (orderbook_history s)) s)
      end
  end.

Definition on_tick (env : Environment) : M unit :=
  self <- get_self ;;
  if negb (is_running self) then ret tt
  else try_except (fetch_and_display_orderbook env)
                  (fun e => logger ERROR (FetchError e)).

Definition stop_monitoring : M unit :=
  modify (set_is_running false) ;;;
  logger INFO MonitoringStopped.

Definition get_current_data (self : RealtimeOrderbook) : option OrderbookData :=
  last (map Some (orderbook_history self)) None.

(** [RealtimeOrderbook(config)]: [__init__]. *)
Definition init (config : option RealtimeOrderbookConfig) : RealtimeOrderbook :=
  let cfg := match config with Some c => c | None => default_config end in
  let cfg := _detect_connector_type cfg in
  let entry := [(connector cfg, [trading_pair cfg])] in
  {| config := cfg;
     markets := if String.eqb (connector_type cfg) "perpetual" then [] else entry;
     derivative_markets :=
       if String.eqb (connector_type cfg) "perpetual" then Some entry else None;
     last_update_time := None;
     update_count := 0;
     is_running := true;
     orderbook_history := [];
     log := [] |}.

(** A run of the scheduler: one [on_tick] per environment; the run stops
    at a tick that lets an exception out. *)
Fixpoint run_ticks (envs : list Environment) : M unit :=
  match envs with
  | [] => ret tt
  | env :: rest => on_tick env ;;; run_ticks rest
  end.

(* ================================================================== *)
(** ** Vocabulary of the statements                                    *)
(* ================================================================== *)

(** [x] may stand before [y] in the output of [sorted]. *)
Definition in_order {A : Type} (key : A -> Q) (reverse : bool) (x y : A) : Prop :=
  Py.goes_before key reverse x y = true.

(** Bids: every level is priced at or above all the levels after it. *)
Definition non_increasing_by_price (levels : list Level) : Prop :=
  StronglySorted (fun a b => lv_price b <= lv_price a) levels.

(** Asks: every level is priced at or below all the levels after it. *)
Definition non_decreasing_by_price (levels : list Level) : Prop :=
  StronglySorted (fun a b => lv_price a <= lv_price b) levels.

(** Two levels with the same price and the same size. *)
Definition same_price_and_size (a b : Level) : Prop :=
  lv_price a == lv_price b /\ lv_volume a == lv_volume b.

(** A level whose price and size are rounded at the configured
    precisions already. *)
Definition rounded_level (cfg : RealtimeOrderbookConfig) (l : Level) : Prop :=
  Py.round (lv_price l) (price_precision cfg) == lv_price l /\
  Py.round (lv_volume l) (volume_precision cfg) == lv_volume l.

(** A row whose price and amount are rounded at the configured
    precisions already. *)
Definition already_rounded (cfg : RealtimeOrderbookConfig) (r : OrderBookRow) : Prop :=
  Py.round (price r) (price_precision cfg) == price r /\
  Py.round (amount r) (volume_precision cfg) == amount r.

(** A processed level read back as a provider row. *)
Definition level_row (l : Level) : OrderBookRow :=
  {| price := lv_price l; amount := lv_volume l; update_id := 0 |}.

(** The row survives the volume filter at [threshold]:
    its size is the threshold or more. *)
(** A level that the volume filter lets through when it is read back as
    a row. *)
Definition still_passes (cfg : RealtimeOrderbookConfig) (l : Level) : Prop :=
  filtered_out cfg (level_row l) = false.



Definition set_config (cfg : RealtimeOrderbookConfig) (self : RealtimeOrderbook)
  : RealtimeOrderbook :=
  mkMonitor cfg (markets self) (derivative_markets self)
    (last_update_time self) (update_count self) (is_running self)
    (orderbook_history self) (log self).

(** Sample book: three bids, the best one small, and two asks. *)
Definition sample_bids : list OrderBookRow :=
  [ mkRow 99 5 1; mkRow 100 1 2; mkRow 98 5 3 ].

Definition sample_asks : list OrderBookRow :=
  [ mkRow 102 1 4; mkRow 101 3 5 ].

Definition sample_book : OrderBook :=
  mkOrderBook (Normal (sample_bids, sample_asks)).

(** The defaults with a depth and a volume filter. *)
Definition config_with (depth : Z) (min_volume : option Q) : RealtimeOrderbookConfig :=
  mkConfig "binance" "ETH-USDT" 1 depth "spot" true true true true false
    min_volume 4 4 true false false None None None.

(** The two kinds of alert. *)
Definition is_high_spread (m : Message) : bool :=
  match m with
  | HighSpreadAlert _ _ => true
  | _ => false
  end.

Definition is_low_volume (m : Message) : bool :=
  match m with
  | LowVolumeAlert _ _ => true
  | _ => false
  end.

(** The rows a side keeps, before they are rounded: the sorted rows cut at
    the depth, without the filtered ones. *)
(** A configuration with the given rounding precisions. *)
Definition precision_config (price_digits volume_digits : Z)
  : RealtimeOrderbookConfig :=
  mkConfig "binance" "ETH-USDT" 1 10 "spot" true true true true false
    None price_digits volume_digits true false false None None None.

(** A row at 1.004 of size 1.004. *)
Definition fine_row : OrderBookRow := mkRow (1004 # 1000) (1004 # 1000) 1.

(** Rows at 1.004 and 2.004, of sizes 5.004 and 7. *)
Definition fine_rows : list OrderBookRow :=
  [ mkRow (1004 # 1000) (5004 # 1000) 1; mkRow (2004 # 1000) 7 2 ].


Definition retained (cfg : RealtimeOrderbookConfig) (reverse : bool)
    (rows : list OrderBookRow) : list OrderBookRow :=
  filter (fun r => negb (filtered_out cfg r))
    (Py.slice_to (orderbook_depth cfg) (Py.sorted price reverse rows)).

(** Some row that a side keeps cannot be rounded: the loop of the side
    raises [OverflowError]. *)
Definition side_overflows (cfg : RealtimeOrderbookConfig) (reverse : bool)
    (rows : list OrderBookRow) : bool :=
  existsb (level_overflows cfg) (retained cfg reverse rows).

(** The data returned for two processed sides, with the divisions carried
    out. *)
Definition reduced (self : RealtimeOrderbook) (now : Z)
    (processed_bids processed_asks : list Level) : OrderbookData :=
  let best_bid := first_price processed_bids in
  let best_ask := first_price processed_asks in
  let both := Py.truthy best_bid && Py.truthy best_ask in
  let mid_price := if both then (best_bid + best_ask) / 2 else 0 in
  let spread := if both then best_ask - best_bid else 0 in
  {| d_timestamp := now;
     d_connector := connector (config self);
     d_trading_pair := trading_pair (config self);
     d_bids := processed_bids;
     d_asks := processed_asks;
     d_best_bid := best_bid;
     d_best_ask := best_ask;
     d_mid_price := mid_price;
     d_spread := spread;
     d_spread_percent :=
       if Py.ltb 0 mid_price then spread / mid_price * 100 else 0;
     d_total_bid_volume := Py.sum (map lv_volume processed_bids);
     d_total_ask_volume := Py.sum (map lv_volume processed_asks);
     d_update_count := update_count self |}.

Definition no_data : OrderbookData :=
  mkData 0 EmptyString EmptyString [] [] 0 0 0 0 0 0 0 0.

Definition returned (o : Outcome OrderbookData) : OrderbookData :=
  match o with
  | Normal data => data
  | Raised _ => no_data
  end.

(** The sample book reduced at depth 2 without a filter. *)
Definition sample_data : OrderbookData :=
  returned (process_orderbook (init (Some (config_with 2 None))) 7 sample_book).

(** The defaults with the two alert thresholds. *)
Definition alert_config (spread volume : option Q) : RealtimeOrderbookConfig :=
  set_spread_alert_threshold spread
    (set_volume_alert_threshold volume (config_with 2 None)).

(** [kw] is a contiguous part of [s]. *)
Definition occurs_in (kw s : string) : Prop :=
  exists pre post, s = (pre ++ kw ++ post)%string.

(** Two characters that are the same, or the upper-case and the
    lower-case form of one letter: in ASCII the letters A to Z have the
    codes 65 to 90 and their lower-case forms come 32 later. *)
Definition same_letter (a b : ascii) : bool :=
  let m := nat_of_ascii a in
  let n := nat_of_ascii b in
  (m =? n)%nat
  || ((65 <=? m)%nat && (m <=? 90)%nat && (n =? m + 32)%nat)
  || ((65 <=? n)%nat && (n <=? 90)%nat && (m =? n + 32)%nat).

(** Two texts that differ at most by the case of their letters. *)
Inductive same_text : string -> string -> Prop :=
| same_text_empty : same_text EmptyString EmptyString
| same_text_cons (a b : ascii) (s t : string) :
    same_letter a b = true -> same_text s t ->
    same_text (String a s) (String b t).

(** Some contiguous part of [s] is [kw] up to the case of its letters. *)
Definition occurs_ignoring_case (kw s : string) : Prop :=
  exists pre part post,
    s = (pre ++ part ++ post)%string /\ same_text part kw.

(** Every character. *)
Definition all_ascii : list ascii := map ascii_of_nat (seq 0 256).

(** The classification as the specification words it, [explicit] being
    the category when one is provided: it is returned as it is; without
    one, the first keyword of the list that occurs in the identifier,
    whatever the case of the letters, makes it a derivative
    ("perpetual"), and without any such keyword it is "spot". *)
Inductive classify_spec (identifier : string) : option string -> string -> Prop :=
| classify_explicit (explicit : string) :
    classify_spec identifier (Some explicit) explicit
| classify_derivative (earlier : list string) (kw : string) (later : list string) :
    perpetual_keywords = earlier ++ kw :: later ->
    (forall k, In k earlier -> ~ occurs_ignoring_case k identifier) ->
    occurs_ignoring_case kw identifier ->
    classify_spec identifier None "perpetual"
| classify_spot :
    (forall k, In k perpetual_keywords -> ~ occurs_ignoring_case k identifier) ->
    classify_spec identifier None "spot".

(** A method that leaves [is_running] as it found it, whether it returns
    or raises. *)
Definition keeps_running {A : Type} (c : M A) : Prop :=
  forall self, is_running (snd (c self)) = is_running self.

Definition is_csv_header (r : LogRecord) : bool :=
  match snd r with
  | Text line => String.eqb line csv_header
  | _ => false
  end.

(** A provider that serves the sample book on every request. *)
Definition sample_env : Environment :=
  mkEnv [("binance"%string, mkConnector (fun _ => Normal (Some sample_book)))]
    None 7 8.

(** A provider whose book cannot be read. *)
Definition failing_env : Environment :=
  mkEnv [("binance"%string,
          mkConnector (fun _ =>
            Normal (Some (mkOrderBook (Raised (ProviderError "snapshot"))))))]
    None 7 8.

(** CSV output selected, everything else as in [config_with 2 None]. *)
Definition csv_config : RealtimeOrderbookConfig :=
  mkConfig "binance" "ETH-USDT" 1 2 "spot" true true true true false
    None 4 4 true false true None None None.

(** The monitors after the first and the second tick of a fresh monitor
    with CSV output. *)
Definition csv_after_first_tick : RealtimeOrderbook :=
  snd (on_tick sample_env (init (Some csv_config))).

Definition csv_after_second_tick : RealtimeOrderbook :=
  snd (on_tick sample_env csv_after_first_tick).

(** The monitor after [n] ticks of a fresh monitor on the sample book. *)
Definition after_ticks (n : nat) : RealtimeOrderbook :=
  snd (run_ticks (repeat sample_env n) (init (Some csv_config))).

(* ================================================================== *)
(** ** The remaining methods and module functions                      *)
(* ================================================================== *)

(** One entry of the dict given to [update_from_dict].  The dicts
    modelled are those whose keys are settings of the configuration, each
    with a value of the setting's type: for such a key [hasattr] holds and
    [setattr] stores the value.  Any other key is left out of the model:
    it may name nothing (the entry is skipped) or another attribute of
    the object, which [setattr] would replace or refuse. *)
Inductive Setting : Type :=
| SetConnector (v : string)
| SetTradingPair (v : string)
| SetRefreshInterval (v : Q)
| SetOrderbookDepth (v : Z)
| SetConnectorType (v : string)
| SetShowVolumes (v : bool)
| SetShowSpreads (v : bool)
| SetShowMidPrice (v : bool)
| SetShowTimestamps (v : bool)
| SetCompactDisplay (v : bool)
| SetMinVolumeFilter (v : option Q)
| SetPricePrecision (v : Z)
| SetVolumePrecision (v : Z)
| SetLogToFile (v : bool)
| SetJsonOutput (v : bool)
| SetCsvOutput (v : bool)
| SetOutputFile (v : option string)
| SetSpreadAlertThreshold (v : option Q)
| SetVolumeAlertThreshold (v : option Q).

Definition setting_key (s : Setting) : string :=
  match s with
  | SetConnector _ => "connector"
  | SetTradingPair _ => "trading_pair"
  | SetRefreshInterval _ => "refresh_interval"
  | SetOrderbookDepth _ => "orderbook_depth"
  | SetConnectorType _ => "connector_type"
  | SetShowVolumes _ => "show_volumes"
  | SetShowSpreads _ => "show_spreads"
  | SetShowMidPrice _ => "show_mid_price"
  | SetShowTimestamps _ => "show_timestamps"
  | SetCompactDisplay _ => "compact_display"
  | SetMinVolumeFilter _ => "min_volume_filter"
  | SetPricePrecision _ => "price_precision"
  | SetVolumePrecision _ => "volume_precision"
  | SetLogToFile _ => "log_to_file"
  | SetJsonOutput _ => "json_output"
  | SetCsvOutput _ => "csv_output"
  | SetOutputFile _ => "output_file"
  | SetSpreadAlertThreshold _ => "spread_alert_threshold"
  | SetVolumeAlertThreshold _ => "volume_alert_threshold"
  end.

(** [if hasattr(self, key): setattr(self, key, value)] for one entry
    whose key is a setting. *)
Definition apply_setting (c : RealtimeOrderbookConfig) (s : Setting)
  : RealtimeOrderbookConfig :=
  mkConfig
    (match s with SetConnector v => v | _ => connector c end)
    (match s with SetTradingPair v => v | _ => trading_pair c end)
    (match s with SetRefreshInterval v => v | _ => refresh_interval c end)
    (match s with SetOrderbookDepth v => v | _ => orderbook_depth c end)
    (match s with SetConnectorType v => v | _ => connector_type c end)
    (match s with SetShowVolumes v => v | _ => show_volumes c end)
    (match s with SetShowSpreads v => v | _ => show_spreads c end)
    (match s with SetShowMidPrice v => v | _ => show_mid_price c end)
    (match s with SetShowTimestamps v => v | _ => show_timestamps c end)
    (match s with SetCompactDisplay v => v | _ => compact_display c end)
    (match s with SetMinVolumeFilter v => v | _ => min_volume_filter c end)
    (match s with SetPricePrecision v => v | _ => price_precision c end)
    (match s with SetVolumePrecision v => v | _ => volume_precision c end)
    (match s with SetLogToFile v => v | _ => log_to_file c end)
    (match s with SetJsonOutput v => v | _ => json_output c end)
    (match s with SetCsvOutput v => v | _ => csv_output c end)
    (match s with SetOutputFile v => v | _ => output_file c end)
    (match s with SetSpreadAlertThreshold v => v | _ => spread_alert_threshold c end)
    (match s with SetVolumeAlertThreshold v => v | _ => volume_alert_threshold c end).

(** [RealtimeOrderbookConfig.update_from_dict]: the entries in the order
    of the dict. *)
Definition update_from_dict (config_dict : list Setting)
    (c : RealtimeOrderbookConfig) : RealtimeOrderbookConfig :=
  fold_left apply_setting config_dict c.

(** [key in new_config]. *)
Definition has_key (key : string) (config_dict : list Setting) : bool :=
  existsb (fun s => String.eqb (setting_key s) key) config_dict.

Definition set_markets (m : list (string * list string))
    (dm : option (list (string * list string))) (self : RealtimeOrderbook)
  : RealtimeOrderbook :=
  mkMonitor (config self) m dm
    (last_update_time self) (update_count self) (is_running self)
    (orderbook_history self) (log self).

(** The line logged by [update_config]. *)
Definition updated_message (cfg : RealtimeOrderbookConfig) : Message :=
  Text ("Updated monitor config: " ++ connector cfg ++ " (" ++
        connector_type cfg ++ ") - " ++ trading_pair cfg)%string.

Definition update_config (new_config : list Setting) : M unit :=
  modify (fun self => set_config (update_from_dict new_config (config self)) self) ;;;
  (if has_key "connector" new_config
   then modify (fun self => set_config (_detect_connector_type (config self)) self)
   else ret tt) ;;;
  if has_key "connector" new_config || has_key "trading_pair" new_config
     || has_key "connector_type" new_config
  then
    self <- get_self ;;
    let cfg := config self in
    let entry := [(connector cfg, [trading_pair cfg])] in
    (if String.eqb (connector_type cfg) "perpetual"
     then modify (set_markets [] (Some entry))
     else modify (set_markets entry
                    (match derivative_markets self with
                     | Some _ => Some []
                     | None => None
                     end))) ;;;
    logger INFO (updated_message cfg)
  else ret tt.

(** The ["error"] dicts of [get_orderbook_snapshot]. *)
Inductive SnapshotError : Type :=
| SnapshotConnectorNotFound (name kind : string)
| SnapshotFailed (e : Exception)
| SnapshotNoData (pair name : string).

(** [get_orderbook_snapshot]: an error dict or the processed data; it
    reads the monitor and does not change it. *)
Definition get_orderbook_snapshot (env : Environment) (self : RealtimeOrderbook)
  : Outcome (SnapshotError + OrderbookData) :=
  let cfg := config self in
  match find_connector env cfg with
  | None =>
      Normal (inl (SnapshotConnectorNotFound (connector cfg) (connector_type cfg)))
  | Some conn =>
      match get_order_book conn (trading_pair cfg) with
      | Raised e => Normal (inl (SnapshotFailed e))
      | Normal None =>
          Normal (inl (SnapshotNoData (trading_pair cfg) (connector cfg)))
      | Normal (Some orderbook) =>
          let? data := process_orderbook self (now_process env) orderbook in
          Normal (inr data)
      end
  end.

(** The text of [format_status], with the values it shows. *)
Inductive Status : Type :=
| Initializing
| Report (pair name kind : string) (updates last : Z) (refresh : Q) (depth : Z).

Definition format_status (self : RealtimeOrderbook) : Status :=
  match last_update_time self with
  | None => Initializing
  | Some last =>
      let cfg := config self in
      Report (trading_pair cfg) (connector cfg) (connector_type cfg)
        (update_count self) last (refresh_interval cfg) (orderbook_depth cfg)
  end.

(** [create_orderbook_monitor]: the monitor it builds and returns. *)
Definition create_orderbook_monitor (config : list Setting) : RealtimeOrderbook :=
  init (Some (update_from_dict config default_config)).

(** [get_supported_connectors]: the lists under ["spot"] and ["perpetual"]. *)
Definition supported_spot : list string :=
  [ "binance"; "binance_paper_trade"; "kucoin"; "kucoin_paper_trade";
    "gate_io"; "gate_io_paper_trade"; "okx"; "okx_paper_trade";
    "bybit"; "bybit_paper_trade"; "coinbase_pro"; "coinbase_advanced_trade";
    "kraken"; "huobi"; "bitfinex"; "bittrex" ]%string.

Definition supported_perpetual : list string :=
  [ "binance_perpetual"; "binance_perpetual_testnet";
    "bybit_perpetual"; "bybit_perpetual_testnet";
    "okx_perpetual"; "okx_perpetual_testnet";
    "kucoin_perpetual"; "kucoin_perpetual_testnet";
    "dydx_perpetual"; "hyperliquid_perpetual";
    "gate_io_perpetual"; "bitget_perpetual" ]%string.

(** The command line of [main] after [parse_args]; [arg_type] is "spot",
    "perpetual" or the default "auto". *)
Record Args : Type := mkArgs {
  arg_connector : string;
  arg_pair : string;
  arg_type : string;
  arg_interval : Q;
  arg_depth : Z;
  arg_compact : bool;
  arg_json : bool;
  arg_csv : bool;
  arg_list_connectors : bool
}.

(** The configuration [main] builds from the arguments. *)
Definition main_config (args : Args) : RealtimeOrderbookConfig :=
  let c :=
    mkConfig (arg_connector args) (arg_pair args) (arg_interval args)
      (arg_depth args) (connector_type default_config)
      (show_volumes default_config) (show_spreads default_config)
      (show_mid_price default_config) (show_timestamps default_config)
      (arg_compact args) (min_volume_filter default_config)
      (price_precision default_config) (volume_precision default_config)
      (log_to_file default_config) (arg_json args) (arg_csv args)
      (output_file default_config) (spread_alert_threshold default_config)
      (volume_alert_threshold default_config) in
  if negb (String.eqb (arg_type args) "auto")
  then set_connector_type (arg_type args) c
  else c.

(** The [while True] loop of [main] over the iterations it gets to run:
    [fetch_and_display_orderbook] is called directly, so an exception
    ends the loop and leaves [main]. *)
Fixpoint standalone_loop (envs : list Environment) : M unit :=
  match envs with
  | [] => ret tt
  | env :: rest => fetch_and_display_orderbook env ;;; standalone_loop rest
  end.

(** [main] up to its prints: [None] when it only lists the connectors;
    otherwise the loop over [envs], the iterations run before the
    keyboard interrupt, and then [stop_monitoring]. *)
Definition main (args : Args) (envs : list Environment)
  : option (Outcome unit * RealtimeOrderbook) :=
  if arg_list_connectors args then None
  else Some ((standalone_loop envs ;;; stop_monitoring)
               (init (Some (main_config args)))).

(** A method whose only effect on the monitor is to send records to the
    logger, whether it returns or raises. *)
Definition logs_only {A : Type} (c : M A) : Prop :=
  forall self, exists records, snd (c self) = set_log (log self ++ records) self.

(** What one [on_tick] can do to the monitor: only add log records, or
    count one update, storing the data it processed at the old count. *)
Inductive tick_effect (env : Environment) (self : RealtimeOrderbook)
  : RealtimeOrderbook -> Prop :=
| tick_not_counted (records : list LogRecord) :
    tick_effect env self (set_log (log self ++ records) self)
| tick_counted (records : list LogRecord) (orderbook : OrderBook)
    (data : OrderbookData) :
    process_orderbook self (now_process env) orderbook = Normal data ->
    tick_effect env self
      (mkMonitor (config self) (markets self) (derivative_markets self)
         (Some (now_update env)) (update_count self + 1)%Z (is_running self)
         (store_history data (orderbook_history self))
         (log self ++ records)).

(** The monitor after the ticks of [envs]. *)
Definition after_run (envs : list Environment) (self : RealtimeOrderbook)
  : RealtimeOrderbook :=
  snd (run_ticks envs self).

(** What holds of a monitor from its creation on: the count is not
    negative, the history holds one entry per counted update up to 101,
    the newest entry was processed at the count before the current one,
    and no update time is recorded exactly while the count is 0. *)
Definition counted_invariant (self : RealtimeOrderbook) : Prop :=
  (0 <= update_count self)%Z /\
  Z.of_nat (List.length (orderbook_history self)) = Z.min (update_count self) 101 /\
  match get_current_data self with
  | None => update_count self = 0%Z
  | Some data => d_update_count data = (update_count self - 1)%Z
  end /\
  (format_status self = Initializing <-> update_count self = 0%Z).

(** The level of the record a skipped tick logs for an error dict of
    [get_orderbook_snapshot]. *)
Definition skip_level (err : SnapshotError) : LogLevel :=
  match err with
  | SnapshotNoData _ _ => WARNING
  | _ => ERROR
  end.

(** A monitor stopped right after its creation. *)
Definition stopped_monitor : RealtimeOrderbook :=
  snd (stop_monitoring (init None)).

(** A provider without the connector the monitor asks for. *)
Definition empty_env : Environment := mkEnv [] None 7 8.

(** The record logged for one level by the full table. *)
Definition row_record (cfg : RealtimeOrderbookConfig) (l : Level) : LogRecord :=
  (INFO, TableRow (lv_price l)
           (if show_volumes cfg then Some (lv_volume l) else None)
           (lv_total l)).

Definition is_table_row (r : LogRecord) : bool :=
  match snd r with
  | TableRow _ _ _ => true
  | _ => false
  end.

(** The records of a full table that is formatted without error, in the
    order they are logged. *)
Definition full_table_records (cfg : RealtimeOrderbookConfig) (data : OrderbookData)
  : list LogRecord :=
  let columns :=
    (INFO, TableColumns (price_precision cfg + 8) (volume_precision cfg + 6)) in
  [ (INFO, Text (string_repeat "=" 80));
    (INFO, TableTitle
             (if show_timestamps cfg then Some (d_timestamp data) else None)
             (d_trading_pair data) (d_connector data)) ] ++
  (if show_mid_price cfg || show_spreads cfg
   then [ (INFO, TableMetrics
                   (if show_mid_price cfg then Some (d_mid_price data) else None)
                   (if show_spreads cfg
                    then Some (d_spread data, d_spread_percent data)
                    else None)) ]
   else []) ++
  [ (INFO, TableSideHeading true (d_total_ask_volume data));
    columns;
    (INFO, Text (string_repeat "-" 60)) ] ++
  map (row_record cfg) (rev (Py.slice_last 5 (d_asks data))) ++
  [ (INFO, TableSpread (d_spread data));
    (INFO, TableSideHeading false (d_total_bid_volume data));
    columns;
    (INFO, Text (string_repeat "-" 60)) ] ++
  map (row_record cfg) (firstn 5 (d_bids data)) ++
  [ (INFO, Text (string_repeat "=" 80)) ].

(** The display the output options select. *)
Definition selected_display (cfg : RealtimeOrderbookConfig) (data : OrderbookData)
  : M unit :=
  if json_output cfg then display_json_format data
  else if csv_output cfg then display_csv_format data
  else display_table_format data.

(** Table output with a negative price precision. *)
Definition bad_precision_config : RealtimeOrderbookConfig :=
  mkConfig "binance" "ETH-USDT" 1 2 "spot" true true true true false
    None (-1) 4 true false false None None None.

(** JSON and CSV both selected. *)
Definition json_csv_config : RealtimeOrderbookConfig :=
  mkConfig "binance" "ETH-USDT" 1 2 "spot" true true true true false
    None (-1) (-1) true true true None None None.

(** A book whose best prices vanish at four digits although both sides
    hold a level. *)
Definition tiny_price_book : OrderBook :=
  mkOrderBook (Normal ([mkRow (1 # 100000) 5 1], [mkRow 101 3 2])).

(** The market tables agree with the configuration: the trading pair is
    registered under the connector in the table of the configured kind
    and the other table is empty or absent. *)
Definition markets_consistent (self : RealtimeOrderbook) : Prop :=
  let cfg := config self in
  let entry := [(connector cfg, [trading_pair cfg])] in
  if String.eqb (connector_type cfg) "perpetual"
  then markets self = [] /\ derivative_markets self = Some entry
  else markets self = entry /\
       (derivative_markets self = None \/ derivative_markets self = Some []).

(** The number of CSV header lines in a log. *)
Definition headers (l : list LogRecord) : nat :=
  List.length (filter is_csv_header l).

(** A command line naming a perpetual connector and no [--type]. *)
(** [RealtimeOrderbookConfig()] with its connector assigned and no
    [connector_type] given: the object [main] builds for [--type auto] and
    [create_orderbook_monitor] for a dict that names the connector only. *)
Definition unspecified_config (name : string) : RealtimeOrderbookConfig :=
  apply_setting default_config (SetConnector name).

Definition sample_args : Args :=
  mkArgs "binance_perpetual" "BTC-USDT" "auto" 1 10 false false false false.

(** The message a skipped tick logs for an error dict of
    [get_orderbook_snapshot]. *)
Definition skip_message (cfg : RealtimeOrderbookConfig) (err : SnapshotError)
  : Message :=
  match err with
  | SnapshotConnectorNotFound name kind => ConnectorNotFound name kind
  | SnapshotFailed e => GetOrderbookFailed (connector cfg) e
  | SnapshotNoData symbol name => NoOrderbookData symbol name
  end.


(** A book with no row on either side. *)
Definition empty_book : OrderBook := mkOrderBook (Normal ([], [])).

(* ================================================================== *)
(** ** Facts about the Python primitives                               *)
(* ================================================================== *)

Module PyFacts.

Lemma truthy_false_iff (q : Q) : Py.truthy q = false <-> q == 0.
Proof.
  unfold Py.truthy. rewrite negb_false_iff. apply Qeq_bool_iff.
Qed.

Lemma truthy_true_iff (q : Q) : Py.truthy q = true <-> ~ q == 0.
Proof.
  unfold Py.truthy. rewrite negb_true_iff, <- not_true_iff_false.
  now rewrite Qeq_bool_iff.
Qed.

Lemma ltb_true_iff (a b : Q) : Py.ltb a b = true <-> a < b.
Proof.
  unfold Py.ltb. rewrite Qlt_alt.
  destruct (Qcompare a b); split; congruence.
Qed.

Lemma ltb_false_iff (a b : Q) : Py.ltb a b = false <-> b <= a.
Proof.
  rewrite <- not_true_iff_false, ltb_true_iff. split.
  - apply Qnot_lt_le.
  - apply Qle_not_lt.
Qed.

#[global] Instance truthy_comp : Proper (Qeq ==> eq) Py.truthy.
Proof.
  intros a b Hab. unfold Py.truthy. f_equal.
  apply eq_true_iff_eq. rewrite !Qeq_bool_iff. now rewrite Hab.
Qed.

#[global] Instance ltb_comp : Proper (Qeq ==> Qeq ==> eq) Py.ltb.
Proof.
  intros a b Hab c d Hcd. unfold Py.ltb. now rewrite Hab, Hcd.
Qed.

(** *** Rounding *)

Lemma round_half_even_range (q : Q) :
  (Qfloor q <= Py.round_half_even q <= Qfloor q + 1)%Z.
Proof.
  unfold Py.round_half_even.
  destruct (Qcompare _ _); [destruct (Z.even _) | | ]; lia.
Qed.

#[global] Instance round_half_even_comp : Proper (Qeq ==> eq) Py.round_half_even.
Proof.
  intros a b Hab. unfold Py.round_half_even.
  rewrite (Qfloor_comp _ _ Hab). now rewrite Hab.
Qed.

Lemma round_half_even_Z (n : Z) : Py.round_half_even (inject_Z n) = n.
Proof.
  unfold Py.round_half_even. rewrite Qfloor_Z.
  assert (H : inject_Z n - inject_Z n < 1 # 2) by lra.
  now rewrite (proj1 (Qlt_alt _ _) H).
Qed.

Lemma round_half_even_mono (a b : Q) :
  a <= b -> (Py.round_half_even a <= Py.round_half_even b)%Z.
Proof.
  intros Hab.
  pose proof (Qfloor_resp_le _ _ Hab) as Hfl.
  destruct (Z.eq_dec (Qfloor a) (Qfloor b)) as [Heq | Hne].
  - unfold Py.round_half_even. rewrite <- Heq.
    destruct (Qcompare (a - inject_Z (Qfloor a)) (1 # 2)) eqn:Ca;
      destruct (Qcompare (b - inject_Z (Qfloor a)) (1 # 2)) eqn:Cb;
      try (destruct (Z.even (Qfloor a))); try lia;
      exfalso;
      first [ pose proof (proj2 (Qeq_alt _ _) Ca) as Ha
            | pose proof (proj2 (Qgt_alt _ _) Ca) as Ha ];
      first [ pose proof (proj2 (Qeq_alt _ _) Cb) as Hb
            | pose proof (proj2 (Qlt_alt _ _) Cb) as Hb ];
      lra.
  - pose proof (round_half_even_range a). pose proof (round_half_even_range b).
    lia.
Qed.

Lemma scale_pos (n : Z) : 0 < inject_Z (10 ^ Z.abs n).
Proof.
  change 0 with (inject_Z 0). rewrite <- Zlt_Qlt.
  apply Z.pow_pos_nonneg; lia.
Qed.

#[global] Instance round_comp : Proper (Qeq ==> eq ==> Qeq) Py.round.
Proof.
  intros a b Hab n m <-. unfold Py.round.
  destruct (0 <=? n)%Z; now rewrite Hab.
Qed.

(** Rounding an already rounded number changes nothing. *)
Lemma round_idempotent (x : Q) (n : Z) :
  Py.round (Py.round x n) n == Py.round x n.
Proof.
  unfold Py.round. pose proof (scale_pos n) as Hs.
  set (s := inject_Z (10 ^ Z.abs n)) in *.
  destruct (0 <=? n)%Z.
  - set (k := Py.round_half_even (x * s)).
    assert (E : inject_Z k / s * s == inject_Z k) by (field; lra).
    now rewrite E, round_half_even_Z.
  - set (k := Py.round_half_even (x / s)).
    assert (E : inject_Z k * s / s == inject_Z k) by (field; lra).
    now rewrite E, round_half_even_Z.
Qed.

(** Rounding preserves the order of its arguments. *)
Lemma round_mono (x y : Q) (n : Z) : x <= y -> Py.round x n <= Py.round y n.
Proof.
  intros Hxy. unfold Py.round. pose proof (scale_pos n) as Hs.
  set (s := inject_Z (10 ^ Z.abs n)) in *.
  destruct (0 <=? n)%Z.
  - apply Qmult_le_compat_r.
    + rewrite <- Zle_Qle. apply round_half_even_mono.
      apply Qmult_le_compat_r; lra.
    + apply Qlt_le_weak, Qinv_lt_0_compat, Hs.
  - apply Qmult_le_compat_r; [ | lra ].
    rewrite <- Zle_Qle. apply round_half_even_mono.
    apply Qmult_le_compat_r; [ lra | ].
    apply Qlt_le_weak, Qinv_lt_0_compat, Hs.
Qed.

(** *** Slices *)

Lemma firstn_In {A : Type} (n : nat) (xs : list A) (x : A) :
  In x (firstn n xs) -> In x xs.
Proof.
  revert xs. induction n as [ | n IH ]; intros [ | y xs ]; simpl; try tauto.
  intros [ -> | H ]; auto.
Qed.

Lemma slice_to_length {A : Type} (n : Z) (xs : list A) :
  (0 <= n)%Z -> (Z.of_nat (List.length (Py.slice_to n xs)) <= n)%Z.
Proof.
  intros Hn. unfold Py.slice_to.
  destruct (0 <=? n)%Z eqn:E; [ | apply Z.leb_gt in E; lia ].
  rewrite length_firstn. lia.
Qed.

Lemma slice_to_all {A : Type} (n : Z) (xs : list A) :
  (Z.of_nat (List.length xs) <= n)%Z -> Py.slice_to n xs = xs.
Proof.
  intros Hn. unfold Py.slice_to.
  destruct (0 <=? n)%Z eqn:E; [ | apply Z.leb_gt in E; lia ].
  apply firstn_all2. lia.
Qed.

Lemma slice_to_incl {A : Type} (n : Z) (xs : list A) (x : A) :
  In x (Py.slice_to n xs) -> In x xs.
Proof.
  unfold Py.slice_to. destruct (0 <=? n)%Z; apply firstn_In.
Qed.

(** *** Stable sort *)

Section SortedFacts.
Context {A : Type} (key : A -> Q) (reverse : bool).

#[local] Abbreviation before := (in_order key reverse).

Lemma goes_before_total (x y : A) :
  Py.goes_before key reverse x y = false ->
  Py.goes_before key reverse y x = true.
Proof.
  unfold Py.goes_before. destruct reverse; intros H;
    apply Qle_bool_iff; apply not_true_iff_false in H;
    rewrite Qle_bool_iff in H; lra.
Qed.

Lemma goes_before_trans (x y z : A) :
  before x y -> before y z -> before x z.
Proof.
  unfold in_order, Py.goes_before. destruct reverse;
    rewrite !Qle_bool_iff; intros; lra.
Qed.

Lemma insert_In (x y : A) (l : list A) :
  In y (Py.insert key reverse x l) <-> y = x \/ In y l.
Proof.
  induction l as [ | z l IH ]; simpl.
  - intuition.
  - destruct (Py.goes_before key reverse x z); simpl.
    + intuition.
    + rewrite IH. intuition.
Qed.

Lemma sorted_In (y : A) (l : list A) :
  In y (Py.sorted key reverse l) <-> In y l.
Proof.
  induction l as [ | x l IH ]; simpl.
  - reflexivity.
  - rewrite insert_In, IH. intuition.
Qed.



Lemma insert_StronglySorted (x : A) (l : list A) :
  StronglySorted before l ->
  StronglySorted before (Py.insert key reverse x l).
Proof.
  induction 1 as [ | z l Hl IH Hz ]; simpl.
  - constructor; constructor.
  - destruct (Py.goes_before key reverse x z) eqn:E.
    + constructor; [ now constructor | ].
      constructor; [ exact E | ].
      rewrite Forall_forall in *. intros y Hy.
      eapply goes_before_trans; [ exact E | auto ].
    + constructor; [ exact IH | ].
      rewrite Forall_forall in *. intros y Hy.
      apply insert_In in Hy. destruct Hy as [ -> | Hy ].
      * now apply goes_before_total.
      * auto.
Qed.

(** The result of [sorted] is in order. *)
Lemma sorted_StronglySorted (l : list A) :
  StronglySorted before (Py.sorted key reverse l).
Proof.
  induction l as [ | x l IH ]; simpl.
  - constructor.
  - now apply insert_StronglySorted.
Qed.

(** Sorting a list that is in order leaves it as it is. *)
Lemma sorted_fixpoint (l : list A) :
  StronglySorted before l -> Py.sorted key reverse l = l.
Proof.
  induction 1 as [ | x l Hl IH Hx ]; simpl; [ reflexivity | ].
  rewrite IH. destruct l as [ | y l ]; simpl; [ reflexivity | ].
  inversion Hx as [ | ? ? Hxy ? ]; subst. unfold in_order in Hxy. now rewrite Hxy.
Qed.
End SortedFacts.

Lemma StronglySorted_firstn {A : Type} (R : A -> A -> Prop) (n : nat) (l : list A) :
  StronglySorted R l -> StronglySorted R (firstn n l).
Proof.
  intros H. revert n. induction H as [ | x l Hl IH Hx ]; intros [ | n ]; simpl;
    try constructor.
  - apply IH.
  - rewrite Forall_forall in *. intros y Hy. apply Hx.
    eapply firstn_In; eauto.
Qed.

Lemma StronglySorted_slice_to {A : Type} (R : A -> A -> Prop) (n : Z) (l : list A) :
  StronglySorted R l -> StronglySorted R (Py.slice_to n l).
Proof.
  unfold Py.slice_to. destruct (0 <=? n)%Z; apply StronglySorted_firstn.
Qed.

Lemma StronglySorted_filter {A : Type} (R : A -> A -> Prop) (f : A -> bool) (l : list A) :
  StronglySorted R l -> StronglySorted R (filter f l).
Proof.
  induction 1 as [ | x l Hl IH Hx ]; simpl; [ constructor | ].
  destruct (f x); [ | exact IH ].
  constructor; [ exact IH | ].
  rewrite Forall_forall in *. intros y Hy.
  apply filter_In in Hy. now apply Hx.
Qed.

Lemma StronglySorted_map {A B : Type} (R : A -> A -> Prop) (S : B -> B -> Prop)
    (f : A -> B) (l : list A) :
  (forall x y, R x y -> S (f x) (f y)) ->
  StronglySorted R l -> StronglySorted S (map f l).
Proof.
  intros HRS. induction 1 as [ | x l Hl IH Hx ]; simpl; constructor.
  - exact IH.
  - rewrite Forall_forall in *. intros y Hy.
    apply in_map_iff in Hy. destruct Hy as [z [<- Hz]]. auto.
Qed.

End PyFacts.

(* ================================================================== *)
(** ** The reducer                                                      *)
(* ================================================================== *)

Module Reducer.

Lemma process_rows_filter (cfg : RealtimeOrderbookConfig)
    (rows : list OrderBookRow) (processed : list Level) :
  process_rows cfg rows processed =
  processed ++ map (make_level cfg)
                 (filter (fun r => negb (filtered_out cfg r)) rows).
Proof.
  revert processed. induction rows as [ | r rows IH ]; intros processed; simpl.
  - now rewrite app_nil_r.
  - destruct (filtered_out cfg r); simpl.
    + apply IH.
    + rewrite IH, <- app_assoc. reflexivity.
Qed.

(** One side is the sorted rows, cut at the depth, then filtered, then
    rounded. *)
Lemma process_side_eq (cfg : RealtimeOrderbookConfig) (reverse : bool)
    (rows : list OrderBookRow) :
  process_side cfg reverse rows =
  map (make_level cfg)
    (filter (fun r => negb (filtered_out cfg r))
       (Py.slice_to (orderbook_depth cfg) (Py.sorted price reverse rows))).
Proof.
  unfold process_side. now rewrite process_rows_filter.
Qed.


Lemma filtered_out_inactive (cfg : RealtimeOrderbookConfig) (r : OrderBookRow) :
  Py.truthy_opt (min_volume_filter cfg) = false -> filtered_out cfg r = false.
Proof.
  unfold filtered_out, Py.truthy_opt.
  destruct (min_volume_filter cfg); [ intros -> | ]; reflexivity.
Qed.

Lemma process_side_length (cfg : RealtimeOrderbookConfig) (reverse : bool)
    (rows : list OrderBookRow) :
  (0 <= orderbook_depth cfg)%Z ->
  (Z.of_nat (List.length (process_side cfg reverse rows)) <= orderbook_depth cfg)%Z.
Proof.
  intros Hd. rewrite process_side_eq, length_map.
  pose proof (filter_length_le (fun r => negb (filtered_out cfg r))
                (Py.slice_to (orderbook_depth cfg) (Py.sorted price reverse rows))).
  pose proof (PyFacts.slice_to_length (orderbook_depth cfg)
                (Py.sorted price reverse rows) Hd).
  lia.
Qed.

Lemma bids_non_increasing (cfg : RealtimeOrderbookConfig) (rows : list OrderBookRow) :
  non_increasing_by_price (process_side cfg true rows).
Proof.
  unfold non_increasing_by_price. rewrite process_side_eq.
  apply PyFacts.StronglySorted_map with (R := in_order price true).
  - unfold in_order, Py.goes_before. intros x y H. simpl.
    apply Qle_bool_iff in H. now apply PyFacts.round_mono.
  - apply PyFacts.StronglySorted_filter, PyFacts.StronglySorted_slice_to,
      PyFacts.sorted_StronglySorted.
Qed.

Lemma asks_non_decreasing (cfg : RealtimeOrderbookConfig) (rows : list OrderBookRow) :
  non_decreasing_by_price (process_side cfg false rows).
Proof.
  unfold non_decreasing_by_price. rewrite process_side_eq.
  apply PyFacts.StronglySorted_map with (R := in_order price false).
  - unfold in_order, Py.goes_before. intros x y H. simpl.
    apply Qle_bool_iff in H. now apply PyFacts.round_mono.
  - apply PyFacts.StronglySorted_filter, PyFacts.StronglySorted_slice_to,
      PyFacts.sorted_StronglySorted.
Qed.

Lemma loop_rows_eq (cfg : RealtimeOrderbookConfig) (rows : list OrderBookRow)
    (processed : list Level) :
  loop_rows cfg rows processed =
  if existsb (level_overflows cfg)
       (filter (fun r => negb (filtered_out cfg r)) rows)
  then Raised OverflowError
  else Normal (process_rows cfg rows processed).
Proof.
  revert processed. induction rows as [ | r rows IH ]; intros processed; simpl.
  - reflexivity.
  - destruct (filtered_out cfg r); simpl.
    + apply IH.
    + unfold round_level. destruct (level_overflows cfg r); simpl.
      * reflexivity.
      * apply IH.
Qed.

(** The loop of a side raises when a row it keeps cannot be rounded and
    builds the side otherwise. *)
Lemma loop_side_eq (cfg : RealtimeOrderbookConfig) (reverse : bool)
    (rows : list OrderBookRow) :
  loop_side cfg reverse rows =
  if side_overflows cfg reverse rows
  then Raised OverflowError
  else Normal (process_side cfg reverse rows).
Proof.
  unfold loop_side, side_overflows, retained, process_side. apply loop_rows_eq.
Qed.

(** [process_orderbook] with its loops and divisions carried out: the
    divisions never raise. *)
Lemma process_orderbook_eq (self : RealtimeOrderbook) (now : Z)
    (orderbook : OrderBook) :
  process_orderbook self now orderbook =
  match snapshot orderbook with
  | Raised e => Raised e
  | Normal (bids, asks) =>
      if side_overflows (config self) true bids then Raised OverflowError
      else if side_overflows (config self) false asks then Raised OverflowError
      else Normal (reduced self now
                     (process_side (config self) true bids)
                     (process_side (config self) false asks))
  end.
Proof.
  unfold process_orderbook.
  destruct (snapshot orderbook) as [[bids asks] | e]; [ | reflexivity ].
  simpl obind. rewrite !loop_side_eq.
  destruct (side_overflows (config self) true bids); [ reflexivity | ].
  simpl obind.
  destruct (side_overflows (config self) false asks); [ reflexivity | ].
  simpl obind. unfold reduced.
  set (bb := first_price (process_side (config self) true bids)).
  set (ba := first_price (process_side (config self) false asks)).
  destruct (Py.truthy bb && Py.truthy ba) eqn:Hboth.
  - unfold py_div at 1. simpl Qeq_bool. cbv iota. simpl obind.
    destruct (Py.ltb 0 ((bb + ba) / 2)) eqn:Hpos.
    + unfold py_div.
      destruct (Qeq_bool ((bb + ba) / 2) 0) eqn:Hz.
      * apply PyFacts.ltb_true_iff in Hpos. apply Qeq_bool_iff in Hz.
        rewrite Hz in Hpos. now apply Qlt_irrefl in Hpos.
      * reflexivity.
    + reflexivity.
  - reflexivity.
Qed.

(** What [process_orderbook] returns on a readable snapshot whose rows
    can be rounded: its sides are the two processed sides. *)
Lemma process_orderbook_returns (self : RealtimeOrderbook) (now : Z)
    (orderbook : OrderBook) (bids asks : list OrderBookRow) :
  snapshot orderbook = Normal (bids, asks) ->
  side_overflows (config self) true bids = false ->
  side_overflows (config self) false asks = false ->
  exists data,
    process_orderbook self now orderbook = Normal data /\
    d_bids data = process_side (config self) true bids /\
    d_asks data = process_side (config self) false asks /\
    d_best_bid data = first_price (d_bids data) /\
    d_best_ask data = first_price (d_asks data) /\
    d_update_count data = update_count self.
Proof.
  intros Hsnap Hb Ha. rewrite process_orderbook_eq, Hsnap, Hb, Ha.
  eexists. repeat split.
Qed.

(** Returned data comes from a readable snapshot whose rows could be
    rounded. *)
Lemma process_orderbook_normal (self : RealtimeOrderbook) (now : Z)
    (orderbook : OrderBook) (data : OrderbookData) :
  process_orderbook self now orderbook = Normal data ->
  exists bids asks,
    snapshot orderbook = Normal (bids, asks) /\
    side_overflows (config self) true bids = false /\
    side_overflows (config self) false asks = false /\
    data = reduced self now (process_side (config self) true bids)
             (process_side (config self) false asks).
Proof.
  rewrite process_orderbook_eq.
  destruct (snapshot orderbook) as [[bids asks] | e]; [ | discriminate ].
  destruct (side_overflows (config self) true bids) eqn:Hb; [ discriminate | ].
  destruct (side_overflows (config self) false asks) eqn:Ha; [ discriminate | ].
  intros H. injection H as <-. exists bids, asks. repeat split; assumption.
Qed.

Lemma process_orderbook_inv (self : RealtimeOrderbook) (now : Z)
    (orderbook : OrderBook) (data : OrderbookData) :
  process_orderbook self now orderbook = Normal data ->
  exists bids asks,
    snapshot orderbook = Normal (bids, asks) /\
    d_bids data = process_side (config self) true bids /\
    d_asks data = process_side (config self) false asks.
Proof.
  intros H. destruct (process_orderbook_normal _ _ _ _ H)
    as [bids [asks [Hsnap [_ [_ ->]]]]].
  exists bids, asks. repeat split. exact Hsnap.
Qed.

(** On a readable snapshot nothing but the overflow of [round] is raised:
    no division by zero. *)
Lemma process_orderbook_raises_only_overflow (self : RealtimeOrderbook) (now : Z)
    (orderbook : OrderBook) (bids asks : list OrderBookRow) (e : Exception) :
  snapshot orderbook = Normal (bids, asks) ->
  process_orderbook self now orderbook = Raised e ->
  e = OverflowError.
Proof.
  intros Hsnap. rewrite process_orderbook_eq, Hsnap.
  destruct (side_overflows (config self) true bids);
    [ intros H; now injection H | ].
  destruct (side_overflows (config self) false asks);
    [ intros H; now injection H | discriminate ].
Qed.

(** A precision that is not negative never makes [round] overflow. *)
Lemma no_overflow_at_natural_precision (cfg : RealtimeOrderbookConfig)
    (reverse : bool) (rows : list OrderBookRow) :
  (0 <= price_precision cfg)%Z -> (0 <= volume_precision cfg)%Z ->
  side_overflows cfg reverse rows = false.
Proof.
  intros Hp Hv. unfold side_overflows.
  induction (retained cfg reverse rows) as [ | r l IH ]; simpl; [ reflexivity | ].
  rewrite IH, orb_false_r. unfold level_overflows, Py.round_overflows.
  apply Z.ltb_ge in Hp, Hv. now rewrite Hp, Hv.
Qed.

(** The reading of one side does not depend on a filter set to zero. *)
Lemma process_side_zero_filter (cfg : RealtimeOrderbookConfig) (z : Q)
    (reverse : bool) (rows : list OrderBookRow) :
  z == 0 ->
  process_side (set_min_volume_filter (Some z) cfg) reverse rows =
  process_side (set_min_volume_filter None cfg) reverse rows.
Proof.
  intros Hz. rewrite !process_side_eq. simpl orderbook_depth.
  f_equal. apply filter_ext. intros r.
  rewrite !filtered_out_inactive; try reflexivity.
  simpl. now apply PyFacts.truthy_false_iff.
Qed.

Lemma loop_side_zero_filter (cfg : RealtimeOrderbookConfig) (z : Q)
    (reverse : bool) (rows : list OrderBookRow) :
  z == 0 ->
  loop_side (set_min_volume_filter (Some z) cfg) reverse rows =
  loop_side (set_min_volume_filter None cfg) reverse rows.
Proof.
  intros Hz. unfold loop_side. simpl orderbook_depth.
  generalize (Py.slice_to (orderbook_depth cfg) (Py.sorted price reverse rows)).
  generalize (@nil Level).
  intros processed kept. revert processed.
  induction kept as [ | r kept IH ]; intros processed; simpl; [ reflexivity | ].
  rewrite !filtered_out_inactive;
    try reflexivity; [ | simpl; now apply PyFacts.truthy_false_iff ].
  change (round_level (set_min_volume_filter (Some z) cfg) r)
    with (round_level (set_min_volume_filter None cfg) r).
  destruct (round_level (set_min_volume_filter None cfg) r) as [level | e]; simpl.
  - apply IH.
  - reflexivity.
Qed.

End Reducer.

(* ================================================================== *)
(** ** Properties of the reducer                                        *)
(* ================================================================== *)







(** Claim C6, as the code has it.  For a depth that is not negative, the
    reduced bids are non-increasing by price, the reduced asks are
    non-decreasing by price, and each side has at most [depth] levels. *)
Theorem C6_sides_ordered_and_bounded (self : RealtimeOrderbook) (now : Z)
    (orderbook : OrderBook) (data : OrderbookData) :
  process_orderbook self now orderbook = Normal data ->
  (0 <= orderbook_depth (config self))%Z ->
  non_increasing_by_price (d_bids data) /\
  non_decreasing_by_price (d_asks data) /\
  (Z.of_nat (List.length (d_bids data)) <= orderbook_depth (config self))%Z /\
  (Z.of_nat (List.length (d_asks data)) <= orderbook_depth (config self))%Z.
Proof.
  intros Hret Hdepth.
  destruct (Reducer.process_orderbook_inv _ _ _ _ Hret)
    as [bids [asks [_ [-> ->]]]].
  repeat split.
  - apply Reducer.bids_non_increasing.
  - apply Reducer.asks_non_decreasing.
  - now apply Reducer.process_side_length.
  - now apply Reducer.process_side_length.
Qed.

(** Claim C6 as stated fails for a negative depth: [sorted(...)[:-1]] is
    all the rows but the last, so at depth -1 the three sample bids give
    two levels, which is more than the depth. *)
Lemma C6_negative_depth_counterexample :
  exists data,
    process_orderbook (init (Some (config_with (-1) None))) 7 sample_book
      = Normal data /\
    List.length (d_bids data) = 2%nat /\
    ~ (Z.of_nat (List.length (d_bids data))
       <= orderbook_depth (config (init (Some (config_with (-1) None)))))%Z.
Proof.
  eexists. split; [ reflexivity | ]. split; [ reflexivity | ].
  vm_compute. intros H. apply H. reflexivity.
Qed.

Lemma C6_sides_ordered_and_bounded_witness :
  non_increasing_by_price (d_bids sample_data) /\
  non_decreasing_by_price (d_asks sample_data) /\
  (Z.of_nat (List.length (d_bids sample_data)) <= 2)%Z /\
  (Z.of_nat (List.length (d_asks sample_data)) <= 2)%Z.
Proof.
  apply (C6_sides_ordered_and_bounded (init (Some (config_with 2 None))) 7
           sample_book sample_data).
  - reflexivity.
  - simpl. lia.
Defined.

Lemma filter_all {A : Type} (f : A -> bool) (l : list A) :
  Forall (fun x => f x = true) l -> filter f l = l.
Proof.
  induction 1 as [ | x l Hx Hl IH ]; simpl; [ reflexivity | ].
  now rewrite Hx, IH.
Qed.

Lemma filtered_out_amount (cfg : RealtimeOrderbookConfig) (r r' : OrderBookRow) :
  amount r == amount r' -> filtered_out cfg r = filtered_out cfg r'.
Proof.
  intros H. unfold filtered_out.
  destruct (min_volume_filter cfg); [ now rewrite H | reflexivity ].
Qed.

Lemma retained_in_order (cfg : RealtimeOrderbookConfig) (reverse : bool)
    (rows : list OrderBookRow) :
  StronglySorted (in_order price reverse) (retained cfg reverse rows).
Proof.
  apply PyFacts.StronglySorted_filter, PyFacts.StronglySorted_slice_to,
    PyFacts.sorted_StronglySorted.
Qed.

(** The price and the size of a level are rounded: rounding them again
    changes nothing. *)
Lemma make_level_rounded (cfg : RealtimeOrderbookConfig) (r : OrderBookRow) :
  rounded_level cfg (make_level cfg r).
Proof.
  unfold rounded_level, make_level. simpl.
  split; apply PyFacts.round_idempotent.
Qed.

Lemma process_side_rounded (cfg : RealtimeOrderbookConfig) (reverse : bool)
    (rows : list OrderBookRow) :
  Forall (rounded_level cfg) (process_side cfg reverse rows).
Proof.
  rewrite Reducer.process_side_eq. apply Forall_forall. intros l Hl.
  apply in_map_iff in Hl. destruct Hl as [r [<- _]]. apply make_level_rounded.
Qed.

(** The levels of a side, read back as rows, are in the order of the
    side already. *)
Lemma levels_in_order (cfg : RealtimeOrderbookConfig) (reverse : bool)
    (rows : list OrderBookRow) :
  StronglySorted (in_order price reverse)
    (map level_row (process_side cfg reverse rows)).
Proof.
  rewrite Reducer.process_side_eq. fold (retained cfg reverse rows).
  rewrite map_map.
  apply PyFacts.StronglySorted_map with (R := in_order price reverse);
    [ | apply retained_in_order ].
  unfold in_order, Py.goes_before. intros x y. simpl.
  destruct reverse; rewrite !Qle_bool_iff; apply PyFacts.round_mono.
Qed.

(** Reducing a reduced side again keeps the levels that still pass the
    filter, with their prices and sizes; the depth is not negative. *)
Lemma process_side_again (cfg : RealtimeOrderbookConfig) (reverse : bool)
    (rows : list OrderBookRow) :
  (0 <= orderbook_depth cfg)%Z ->
  Forall2 same_price_and_size
    (process_side cfg reverse (map level_row (process_side cfg reverse rows)))
    (filter (fun l => negb (filtered_out cfg (level_row l)))
       (process_side cfg reverse rows)).
Proof.
  intros Hdepth.
  pose proof (Reducer.process_side_length cfg reverse rows Hdepth) as Hlen.
  pose proof (levels_in_order cfg reverse rows) as Hord.
  pose proof (process_side_rounded cfg reverse rows) as Hrounded.
  set (out := process_side cfg reverse rows) in *.
  rewrite Reducer.process_side_eq.
  rewrite (PyFacts.sorted_fixpoint _ _ _ Hord).
  rewrite PyFacts.slice_to_all by (rewrite length_map; exact Hlen).
  clear Hlen Hord.
  induction Hrounded as [ | l levels [Hp Hv] _ IH ]; simpl; [ constructor | ].
  destruct (filtered_out cfg (level_row l)); simpl.
  - exact IH.
  - constructor; [ | exact IH ].
    unfold same_price_and_size, make_level, level_row. simpl. now split.
Qed.

(** Rows that are rounded already give levels that still pass the
    filter. *)
Lemma rounded_rows_still_pass (cfg : RealtimeOrderbookConfig) (reverse : bool)
    (rows : list OrderBookRow) :
  Forall (already_rounded cfg) rows ->
  Forall (still_passes cfg) (process_side cfg reverse rows).
Proof.
  intros Hrows. rewrite Reducer.process_side_eq. apply Forall_forall.
  intros l Hl. apply in_map_iff in Hl. destruct Hl as [r [<- Hr]].
  apply filter_In in Hr. destruct Hr as [Hr Hkeep].
  apply negb_true_iff in Hkeep.
  apply PyFacts.slice_to_incl in Hr. apply PyFacts.sorted_In in Hr.
  rewrite Forall_forall in Hrows. destruct (Hrows r Hr) as [_ Ha].
  unfold still_passes. rewrite <- Hkeep. apply filtered_out_amount. exact Ha.
Qed.

(** Claim C9, as the code has it.  Let a side be reduced to [out], with a
    depth that is not negative.  The prices and sizes of [out] are rounded
    at the configured precisions, and when its sizes still pass the volume
    filter and none of its roundings overflows, reducing [out] again at
    the same precisions returns as many levels with identical prices and
    sizes.  Nothing is said of the notionals. *)
Theorem C9_prices_and_sizes_idempotent (cfg : RealtimeOrderbookConfig)
    (reverse : bool) (rows : list OrderBookRow) (out : list Level) :
  (0 <= orderbook_depth cfg)%Z ->
  loop_side cfg reverse rows = Normal out ->
  Forall (still_passes cfg) out ->
  side_overflows cfg reverse (map level_row out) = false ->
  Forall (rounded_level cfg) out /\
  exists again,
    loop_side cfg reverse (map level_row out) = Normal again /\
    Forall2 same_price_and_size again out.
Proof.
  intros Hdepth Hout Hpass Hsafe.
  rewrite Reducer.loop_side_eq in Hout.
  destruct (side_overflows cfg reverse rows); [ discriminate Hout | ].
  injection Hout as <-. split; [ apply process_side_rounded | ].
  rewrite Reducer.loop_side_eq, Hsafe. eexists. split; [ reflexivity | ].
  pose proof (process_side_again cfg reverse rows Hdepth) as Hagain.
  rewrite filter_all in Hagain; [ exact Hagain | ].
  revert Hpass. apply Forall_impl. intros l Hl. unfold still_passes in Hl.
  now rewrite Hl.
Qed.

(** Bids at 1.004 and 2.004 of sizes 5.004 and 7, two digits, a filter
    at 5: the levels are 2.0 of size 7.0 and 1.0 of size 5.0, and so they
    are when reduced again. *)
Lemma C9_prices_and_sizes_idempotent_witness :
  Forall (rounded_level (set_min_volume_filter (Some 5) (precision_config 2 2)))
    (process_side (set_min_volume_filter (Some 5) (precision_config 2 2))
       true fine_rows) /\
  exists again,
    loop_side (set_min_volume_filter (Some 5) (precision_config 2 2)) true
      (map level_row
         (process_side (set_min_volume_filter (Some 5) (precision_config 2 2))
            true fine_rows)) = Normal again /\
    Forall2 same_price_and_size again
      (process_side (set_min_volume_filter (Some 5) (precision_config 2 2))
         true fine_rows).
Proof.
  apply (C9_prices_and_sizes_idempotent
           (set_min_volume_filter (Some 5) (precision_config 2 2)) true fine_rows
           (process_side (set_min_volume_filter (Some 5) (precision_config 2 2))
              true fine_rows)).
  - simpl. lia.
  - vm_compute. reflexivity.
  - repeat constructor.
  - vm_compute. reflexivity.
Defined.

(** Claim C9 as stated fails for the notionals.  A row at 1.004 of size
    1.004 is reduced at two digits to the level 1.0, 1.0 with notional
    [round(1.008016, 2)], that is 1.01; its price and size are rounded.
    Reduced again, the level keeps 1.0 and 1.0 and its notional becomes
    [round(1.0 * 1.0, 2)], that is 1. *)
Lemma C9_notional_counterexample :
  exists first again,
    loop_side (precision_config 2 2) true [ fine_row ] = Normal [ first ] /\
    rounded_level (precision_config 2 2) first /\
    loop_side (precision_config 2 2) true [ level_row first ] = Normal [ again ] /\
    same_price_and_size again first /\
    lv_total first == 101 # 100 /\
    lv_total again == 1 /\
    ~ lv_total again == lv_total first.
Proof.
  eexists. eexists.
  split; [ vm_compute; reflexivity | ].
  split; [ split; vm_compute; reflexivity | ].
  split; [ vm_compute; reflexivity | ].
  split; [ split; vm_compute; reflexivity | ].
  split; [ vm_compute; reflexivity | ].
  split; [ vm_compute; reflexivity | ].
  vm_compute. discriminate.
Qed.

(** The depth has to be non-negative: at depth -1 a side of two levels is
    reduced again to one. *)
Lemma reduce_again_negative_depth :
  List.length (process_side (config_with (-1) None) true sample_bids) = 2%nat /\
  List.length
    (process_side (config_with (-1) None) true
       (map level_row (process_side (config_with (-1) None) true sample_bids)))
    = 1%nat.
Proof. split; reflexivity. Qed.

(** The sizes have to pass the filter still: a row of size 5.004 passes a
    filter at 5.003 and its level, of size 5.0, does not. *)
Lemma reduce_again_filter_drops :
  List.length
    (process_side (set_min_volume_filter (Some (5003 # 1000)) (precision_config 2 2))
       true fine_rows) = 2%nat /\
  List.length
    (process_side (set_min_volume_filter (Some (5003 # 1000)) (precision_config 2 2))
       true
       (map level_row
          (process_side
             (set_min_volume_filter (Some (5003 # 1000)) (precision_config 2 2))
             true fine_rows)))
    = 1%nat.
Proof. split; reflexivity. Qed.

(* ================================================================== *)
(** ** Alerts                                                           *)
(* ================================================================== *)

Module Alerts.

(** The list [alerts] in closed form: at most one alert of each kind, the
    spread alert first. *)
Lemma alerts_of_eq (cfg : RealtimeOrderbookConfig) (data : OrderbookData) :
  alerts_of cfg data =
  match spread_alert_threshold cfg with
  | Some ts =>
      if Py.truthy ts && Py.ltb ts (d_spread_percent data)
      then [HighSpreadAlert (d_spread_percent data) ts] else []
  | None => []
  end ++
  match volume_alert_threshold cfg with
  | Some tv =>
      if Py.truthy tv &&
         Py.ltb (d_total_bid_volume data + d_total_ask_volume data) tv
      then [LowVolumeAlert (d_total_bid_volume data + d_total_ask_volume data) tv]
      else []
  | None => []
  end.
Proof.
  unfold alerts_of.
  destruct (spread_alert_threshold cfg) as [ts | ];
    destruct (volume_alert_threshold cfg) as [tv | ]; simpl;
    repeat match goal with
           | |- context [ if ?b then _ else _ ] => destruct b; simpl
           end; reflexivity.
Qed.

Lemma high_spread_iff (cfg : RealtimeOrderbookConfig) (data : OrderbookData) (ts : Q) :
  spread_alert_threshold cfg = Some ts -> ~ ts == 0 ->
  (existsb is_high_spread (alerts_of cfg data) = true <->
   ts < d_spread_percent data).
Proof.
  intros Hcfg Hnz. rewrite alerts_of_eq, Hcfg, existsb_app.
  apply PyFacts.truthy_true_iff in Hnz. rewrite Hnz. simpl.
  rewrite <- PyFacts.ltb_true_iff.
  destruct (Py.ltb ts (d_spread_percent data)); simpl.
  - tauto.
  - destruct (volume_alert_threshold cfg) as [tv | ]; simpl;
      [ destruct (Py.truthy tv && _) | ]; simpl; split; congruence.
Qed.

Lemma low_volume_iff (cfg : RealtimeOrderbookConfig) (data : OrderbookData) (tv : Q) :
  volume_alert_threshold cfg = Some tv -> ~ tv == 0 ->
  (existsb is_low_volume (alerts_of cfg data) = true <->
   d_total_bid_volume data + d_total_ask_volume data < tv).
Proof.
  intros Hcfg Hnz. rewrite alerts_of_eq, Hcfg, existsb_app.
  apply PyFacts.truthy_true_iff in Hnz. rewrite Hnz. simpl.
  rewrite <- PyFacts.ltb_true_iff.
  assert (Hnone : existsb is_low_volume
                    match spread_alert_threshold cfg with
                    | Some ts =>
                        if Py.truthy ts && Py.ltb ts (d_spread_percent data)
                        then [HighSpreadAlert (d_spread_percent data) ts] else []
                    | None => []
                    end = false).
  { destruct (spread_alert_threshold cfg) as [ts | ]; simpl;
      [ destruct (Py.truthy ts && _) | ]; reflexivity. }
  rewrite Hnone. simpl.
  destruct (Py.ltb _ tv); simpl; split; congruence.
Qed.

End Alerts.

(** Claim C7, as the code has it.  With both thresholds set to non-zero
    values, the high-spread alert fires iff the spread percentage is
    strictly above its threshold, the low-volume alert fires iff the sum
    of the two total volumes is strictly below its threshold, and when
    both fire the list is the high-spread alert followed by the low-volume
    alert. *)
Theorem C7_alerts_strict_and_ordered (cfg : RealtimeOrderbookConfig)
    (data : OrderbookData) (ts tv : Q) :
  spread_alert_threshold cfg = Some ts -> ~ ts == 0 ->
  volume_alert_threshold cfg = Some tv -> ~ tv == 0 ->
  (existsb is_high_spread (alerts_of cfg data) = true <->
   ts < d_spread_percent data) /\
  (existsb is_low_volume (alerts_of cfg data) = true <->
   d_total_bid_volume data + d_total_ask_volume data < tv) /\
  (ts < d_spread_percent data ->
   d_total_bid_volume data + d_total_ask_volume data < tv ->
   alerts_of cfg data =
     [ HighSpreadAlert (d_spread_percent data) ts;
       LowVolumeAlert (d_total_bid_volume data + d_total_ask_volume data) tv ]).
Proof.
  intros Hs Hsnz Hv Hvnz. split; [ | split ].
  - now apply Alerts.high_spread_iff.
  - now apply Alerts.low_volume_iff.
  - intros Hhigh Hlow. rewrite Alerts.alerts_of_eq, Hs, Hv.
    apply PyFacts.truthy_true_iff in Hsnz, Hvnz.
    apply PyFacts.ltb_true_iff in Hhigh, Hlow.
    now rewrite Hsnz, Hvnz, Hhigh, Hlow.
Qed.

Lemma C7_alerts_strict_and_ordered_witness :
  (existsb is_high_spread
     (alerts_of (alert_config (Some (1 # 2)) (Some 20)) sample_data) = true <->
   1 # 2 < d_spread_percent sample_data) /\
  (existsb is_low_volume
     (alerts_of (alert_config (Some (1 # 2)) (Some 20)) sample_data) = true <->
   d_total_bid_volume sample_data + d_total_ask_volume sample_data < 20) /\
  (1 # 2 < d_spread_percent sample_data ->
   d_total_bid_volume sample_data + d_total_ask_volume sample_data < 20 ->
   alerts_of (alert_config (Some (1 # 2)) (Some 20)) sample_data =
     [ HighSpreadAlert (d_spread_percent sample_data) (1 # 2);
       LowVolumeAlert
         (d_total_bid_volume sample_data + d_total_ask_volume sample_data) 20 ]).
Proof.
  apply (C7_alerts_strict_and_ordered
           (alert_config (Some (1 # 2)) (Some 20)) sample_data (1 # 2) 20).
  - reflexivity.
  - unfold Qeq; simpl; lia.
  - reflexivity.
  - unfold Qeq; simpl; lia.
Defined.

(** Claim C7 as stated fails at a threshold configured as 0: the sample
    data has a positive spread percentage, which is strictly above 0, and
    no high-spread alert is produced. *)
Lemma C7_zero_threshold_counterexample :
  spread_alert_threshold (alert_config (Some 0) None) = Some 0 /\
  0 < d_spread_percent sample_data /\
  existsb is_high_spread (alerts_of (alert_config (Some 0) None) sample_data) = false.
Proof.
  repeat split.
Qed.

(** Claim C10.  A [min_volume_filter], [spread_alert_threshold] or
    [volume_alert_threshold] of 0 behaves as the option left unset: no
    level is filtered, the reduction and the alert list are the ones
    obtained with [None], and no alert of the kind is ever produced. *)
Theorem C10_zero_is_unset (cfg : RealtimeOrderbookConfig) (z : Q) :
  z == 0 ->
  (forall r, filtered_out (set_min_volume_filter (Some z) cfg) r = false) /\
  (forall self now orderbook,
      process_orderbook (set_config (set_min_volume_filter (Some z) cfg) self)
        now orderbook =
      process_orderbook (set_config (set_min_volume_filter None cfg) self)
        now orderbook) /\
  (forall data,
      alerts_of (set_spread_alert_threshold (Some z) cfg) data =
      alerts_of (set_spread_alert_threshold None cfg) data /\
      existsb is_high_spread
        (alerts_of (set_spread_alert_threshold (Some z) cfg) data) = false) /\
  (forall data,
      alerts_of (set_volume_alert_threshold (Some z) cfg) data =
      alerts_of (set_volume_alert_threshold None cfg) data /\
      existsb is_low_volume
        (alerts_of (set_volume_alert_threshold (Some z) cfg) data) = false).
Proof.
  intros Hz. pose proof (proj2 (PyFacts.truthy_false_iff z) Hz) as Hfalsy.
  split; [ | split; [ | split ] ].
  - intros r. apply Reducer.filtered_out_inactive. exact Hfalsy.
  - intros self now orderbook. unfold process_orderbook. simpl config.
    destruct (snapshot orderbook) as [[bids asks] | e]; [ | reflexivity ].
    simpl obind. rewrite !(Reducer.loop_side_zero_filter cfg z _ _ Hz).
    reflexivity.
  - intros data. rewrite !Alerts.alerts_of_eq. simpl. rewrite Hfalsy. simpl.
    split; [ reflexivity | ].
    destruct (volume_alert_threshold cfg) as [tv | ]; simpl;
      [ destruct (Py.truthy tv && _) | ]; reflexivity.
  - intros data. rewrite !Alerts.alerts_of_eq. simpl. rewrite Hfalsy. simpl.
    split; [ reflexivity | ]. rewrite app_nil_r.
    destruct (spread_alert_threshold cfg) as [ts | ]; simpl;
      [ destruct (Py.truthy ts && _) | ]; reflexivity.
Qed.

Lemma C10_zero_is_unset_witness :
  (forall r, filtered_out (set_min_volume_filter (Some (0 # 5)) default_config) r = false) /\
  (forall self now orderbook,
      process_orderbook
        (set_config (set_min_volume_filter (Some (0 # 5)) default_config) self)
        now orderbook =
      process_orderbook
        (set_config (set_min_volume_filter None default_config) self)
        now orderbook) /\
  (forall data,
      alerts_of (set_spread_alert_threshold (Some (0 # 5)) default_config) data =
      alerts_of (set_spread_alert_threshold None default_config) data /\
      existsb is_high_spread
        (alerts_of (set_spread_alert_threshold (Some (0 # 5)) default_config) data)
      = false) /\
  (forall data,
      alerts_of (set_volume_alert_threshold (Some (0 # 5)) default_config) data =
      alerts_of (set_volume_alert_threshold None default_config) data /\
      existsb is_low_volume
        (alerts_of (set_volume_alert_threshold (Some (0 # 5)) default_config) data)
      = false).
Proof.
  apply (C10_zero_is_unset default_config (0 # 5)).
  reflexivity.
Defined.

(* ================================================================== *)
(** ** The classifier                                                   *)
(* ================================================================== *)

Module Classifier.

Local Open Scope string_scope.

Lemma prefix_iff (a s : string) :
  String.prefix a s = true <-> exists post, s = a ++ post.
Proof.
  revert s. induction a as [ | c a IH ]; intros s.
  - split; [ intros _; now exists s | destruct s; reflexivity ].
  - destruct s as [ | d s ]; simpl.
    + split; [ discriminate | intros [post H]; discriminate H ].
    + destruct (Ascii.ascii_dec c d) as [ <- | Hne ].
      * rewrite IH. split; intros [post H]; exists post.
        -- now rewrite H.
        -- now injection H.
      * split; [ discriminate | ].
        intros [post H]. injection H as H1 H2. now elim Hne.
Qed.

Lemma contains_nil (kw : string) :
  Py.contains kw EmptyString = String.prefix kw EmptyString.
Proof.
  change (Py.contains kw EmptyString)
    with (if String.prefix kw EmptyString then true else false).
  now destruct (String.prefix kw EmptyString).
Qed.

Lemma contains_cons (kw : string) (d : ascii) (s : string) :
  Py.contains kw (String d s) =
  if String.prefix kw (String d s) then true else Py.contains kw s.
Proof. reflexivity. Qed.

Lemma contains_iff (kw s : string) :
  Py.contains kw s = true <-> occurs_in kw s.
Proof.
  unfold occurs_in. induction s as [ | d s IH ].
  - rewrite contains_nil, prefix_iff. split.
    + intros [post H]. now exists EmptyString, post.
    + intros [pre [post H]]. destruct pre as [ | c pre ]; [ | discriminate H ].
      now exists post.
  - rewrite contains_cons.
    destruct (String.prefix kw (String d s)) eqn:E.
    + apply prefix_iff in E. destruct E as [post E].
      split; [ intros _; now exists EmptyString, post | reflexivity ].
    + rewrite IH. split.
      * intros [pre [post H]]. exists (String d pre), post. simpl. now rewrite H.
      * intros [pre [post H]]. destruct pre as [ | c pre ].
        -- simpl in H. assert (String.prefix kw (String d s) = true) as E'
             by (apply prefix_iff; now exists post).
           congruence.
        -- simpl in H. injection H as _ H. now exists pre, post.
Qed.

Lemma lower_app (a b : string) :
  Py.lower (a ++ b) = Py.lower a ++ Py.lower b.
Proof.
  induction a as [ | c a IH ]; simpl; [ reflexivity | now rewrite IH ].
Qed.

Lemma lower_split (s a' b' : string) :
  Py.lower s = a' ++ b' ->
  exists a b, s = a ++ b /\ Py.lower a = a' /\ Py.lower b = b'.
Proof.
  revert s. induction a' as [ | c a' IH ]; intros s H; simpl in H.
  - now exists EmptyString, s.
  - destruct s as [ | d s ]; simpl in H; [ discriminate H | ].
    injection H as Hc H. destruct (IH s H) as [a [b [-> [Ha Hb]]]].
    exists (String d a), b. simpl. now rewrite Hc, Ha.
Qed.

Lemma all_ascii_complete (a : ascii) : In a all_ascii.
Proof.
  unfold all_ascii. rewrite <- (ascii_nat_embedding a).
  apply in_map, in_seq. pose proof (nat_ascii_bounded a). lia.
Qed.

(** [lower] sends two characters to the same one exactly when they are
    the same letter: checked on every pair of characters. *)
Lemma lower_char_same_letter (a b : ascii) :
  Ascii.eqb (Py.lower_char a) (Py.lower_char b) = same_letter a b.
Proof.
  assert (H : forallb
                (fun a => forallb
                   (fun b => Bool.eqb
                      (Ascii.eqb (Py.lower_char a) (Py.lower_char b))
                      (same_letter a b)) all_ascii) all_ascii = true)
    by (vm_compute; reflexivity).
  rewrite forallb_forall in H. specialize (H a (all_ascii_complete a)).
  rewrite forallb_forall in H. specialize (H b (all_ascii_complete b)).
  now apply Bool.eqb_prop in H.
Qed.

Lemma lower_same_text (s t : string) :
  Py.lower s = Py.lower t <-> same_text s t.
Proof.
  revert t. induction s as [ | a s IH ]; intros [ | b t ]; simpl.
  - split; [ constructor | reflexivity ].
  - split; [ discriminate | inversion 1 ].
  - split; [ discriminate | inversion 1 ].
  - split.
    + intros H. injection H as Hc Hs. constructor.
      * rewrite <- lower_char_same_letter. now apply Ascii.eqb_eq.
      * now apply IH.
    + intros H. inversion H as [ | ? ? ? ? Hc Hs ]; subst.
      rewrite <- lower_char_same_letter in Hc. apply Ascii.eqb_eq in Hc.
      apply IH in Hs. now rewrite Hc, Hs.
Qed.

(** Looking for a lower-case keyword in the lowered name is looking for
    it in the name whatever the case of the letters. *)
Lemma occurs_in_lower (kw s : string) :
  Py.lower kw = kw ->
  (occurs_in kw (Py.lower s) <-> occurs_ignoring_case kw s).
Proof.
  intros Hkw. unfold occurs_in, occurs_ignoring_case. split.
  - intros [pre' [post' H]].
    destruct (lower_split _ _ _ H) as [pre [rest [-> [Hpre Hrest]]]].
    destruct (lower_split _ _ _ Hrest) as [part [post [-> [Hpart Hpost]]]].
    exists pre, part, post. split; [ reflexivity | ].
    apply lower_same_text. congruence.
  - intros [pre [part [post [-> Hpart]]]].
    apply lower_same_text in Hpart.
    exists (Py.lower pre), (Py.lower post).
    rewrite !lower_app. congruence.
Qed.

Lemma keywords_lower_case (kw : string) :
  In kw perpetual_keywords -> Py.lower kw = kw.
Proof.
  unfold perpetual_keywords. simpl.
  intros H. repeat (destruct H as [ <- | H ]; [ reflexivity | ]).
  contradiction.
Qed.

(** The keyword loop stops at the first keyword found. *)
Lemma detect_by_keyword_spec (keywords : list string) (name : string) :
  match detect_by_keyword keywords name with
  | Some t =>
      t = "perpetual" /\
      exists earlier kw later,
        keywords = (earlier ++ kw :: later)%list /\
        (forall k, In k earlier -> Py.contains k name = false) /\
        Py.contains kw name = true
  | None => forall k, In k keywords -> Py.contains k name = false
  end.
Proof.
  induction keywords as [ | kw keywords IH ]; simpl.
  - intros k [].
  - destruct (Py.contains kw name) eqn:E.
    + split; [ reflexivity | ].
      exists [], kw, keywords. repeat split; [ intros k [] | exact E ].
    + destruct (detect_by_keyword keywords name) as [t | ].
      * destruct IH as [-> [earlier [kw' [later [-> [Hearlier Hkw']]]]]].
        split; [ reflexivity | ].
        exists (kw :: earlier), kw', later. repeat split; [ | exact Hkw' ].
        intros k [ <- | Hk ]; auto.
      * intros k [ <- | Hk ]; auto.
Qed.

Lemma contains_ignoring_case (kw name : string) :
  In kw perpetual_keywords ->
  (Py.contains kw (Py.lower name) = true <-> occurs_ignoring_case kw name).
Proof.
  intros Hkw. rewrite contains_iff.
  apply occurs_in_lower. now apply keywords_lower_case.
Qed.

End Classifier.

(** What [_detect_connector_type] does, against the classification of
    the specification: a non-empty [connector_type] is taken as the
    category provided and left as it is; an empty one is taken as none
    provided and replaced by the category of the connector name.  Nothing
    but the category of the configuration is changed. *)
Lemma detection_refines_classification (cfg : RealtimeOrderbookConfig) :
  classify_spec (connector cfg)
    (if Py.truthy_str (connector_type cfg) then Some (connector_type cfg) else None)
    (connector_type (_detect_connector_type cfg)) /\
  _detect_connector_type cfg =
    set_connector_type (connector_type (_detect_connector_type cfg)) cfg.
Proof.
  unfold _detect_connector_type.
  pose proof (Classifier.detect_by_keyword_spec perpetual_keywords
                (Py.lower (connector cfg))) as Hloop.
  destruct (Py.truthy_str (connector_type cfg)) eqn:Hexplicit.
  - split; [ apply classify_explicit | now destruct cfg ].
  - destruct (detect_by_keyword perpetual_keywords (Py.lower (connector cfg)))
      as [t | ].
    + destruct Hloop as [-> [earlier [kw [later [Hsplit [Hearlier Hkw]]]]]].
      split; [ | reflexivity ].
      change (connector_type (set_connector_type "perpetual" cfg))
        with "perpetual"%string.
      apply (classify_derivative _ earlier kw later); auto.
      * intros k Hk Hocc.
        apply Classifier.contains_ignoring_case in Hocc.
        -- rewrite (Hearlier k Hk) in Hocc. discriminate.
        -- rewrite Hsplit. apply in_or_app. now left.
      * apply Classifier.contains_ignoring_case; [ | exact Hkw ].
        rewrite Hsplit. apply in_or_app. right. now left.
    + split; [ | reflexivity ].
      change (connector_type (set_connector_type "spot" cfg)) with "spot"%string.
      apply classify_spot.
      intros k Hk Hocc. apply Classifier.contains_ignoring_case in Hocc; [ | exact Hk ].
      rewrite (Hloop k Hk) in Hocc. discriminate.
Qed.

(** Claim C4 fails on the code where no category is provided.  A
    configuration made for the connector "binance_perpetual" without a
    [connector_type] holds the class default "spot"; the classification of
    the claim, with no category provided, is "perpetual" and not "spot",
    and [_detect_connector_type] takes the default for a provided category
    and leaves "spot", so that [main] with [--type auto] makes a spot
    monitor.  The keyword search itself does what the claim says: with an
    empty [connector_type] the name "Binance_PERPETUAL" is classified
    "perpetual". *)
Theorem C4_unspecified_kind_is_not_detected :
  connector_type (unspecified_config "binance_perpetual") = "spot"%string /\
  classify_spec "binance_perpetual" None "perpetual" /\
  ~ classify_spec "binance_perpetual" None "spot" /\
  connector_type (_detect_connector_type (unspecified_config "binance_perpetual"))
    = "spot"%string /\
  arg_type sample_args = "auto"%string /\
  connector (config (init (Some (main_config sample_args))))
    = "binance_perpetual"%string /\
  connector_type (config (init (Some (main_config sample_args)))) = "spot"%string /\
  connector_type
    (_detect_connector_type
       (set_connector_type EmptyString (unspecified_config "Binance_PERPETUAL")))
    = "perpetual"%string.
Proof.
  assert (Hocc : occurs_ignoring_case "perpetual" "binance_perpetual").
  { exists "binance_"%string, "perpetual"%string, EmptyString.
    split; [ reflexivity | ]. repeat constructor. }
  split; [ reflexivity | ]. split; [ | split ].
  - apply (classify_derivative _ [] "perpetual"
             (List.tl perpetual_keywords)); [ reflexivity | intros k [] | exact Hocc ].
  - intros H. inversion H as [ | | Hnone ]. apply (Hnone "perpetual"%string).
    + now left.
    + exact Hocc.
  - repeat split.
Qed.

(* ================================================================== *)
(** ** The tick                                                         *)
(* ================================================================== *)

Module Tick.

Lemma keeps_ret {A : Type} (a : A) : keeps_running (ret a).
Proof. intros self. reflexivity. Qed.

Lemma keeps_lift {A : Type} (o : Outcome A) : keeps_running (lift o).
Proof. intros self. reflexivity. Qed.

Lemma keeps_get_self : keeps_running get_self.
Proof. intros self. reflexivity. Qed.

Lemma keeps_bind {A B : Type} (c : M A) (k : A -> M B) :
  keeps_running c -> (forall a, keeps_running (k a)) -> keeps_running (bind c k).
Proof.
  intros Hc Hk self. unfold bind. specialize (Hc self).
  destruct (c self) as [[a | e] self']; simpl in *.
  - now rewrite Hk.
  - exact Hc.
Qed.

Lemma keeps_try_except {A : Type} (body : M A) (handler : Exception -> M A) :
  keeps_running body -> (forall e, keeps_running (handler e)) ->
  keeps_running (try_except body handler).
Proof.
  intros Hb Hh self. unfold try_except. specialize (Hb self).
  destruct (body self) as [[a | e] self']; simpl in *.
  - exact Hb.
  - now rewrite Hh.
Qed.

Lemma keeps_modify (f : RealtimeOrderbook -> RealtimeOrderbook) :
  (forall self, is_running (f self) = is_running self) ->
  keeps_running (modify f).
Proof. intros Hf self. simpl. apply Hf. Qed.

Lemma keeps_logger (level : LogLevel) (msg : Message) :
  keeps_running (logger level msg).
Proof. apply keeps_modify. reflexivity. Qed.

Lemma keeps_for_each {A : Type} (xs : list A) (body : A -> M unit) :
  (forall x, keeps_running (body x)) -> keeps_running (for_each xs body).
Proof.
  intros Hbody. induction xs as [ | x xs IH ]; simpl.
  - apply keeps_ret.
  - apply keeps_bind; auto.
Qed.

Create HintDb keeps.
#[local] Hint Resolve keeps_ret keeps_lift keeps_get_self keeps_logger
  keeps_for_each keeps_modify : keeps.

Ltac keeps :=
  repeat first
    [ apply keeps_bind; [ | intros ? ]
    | apply keeps_for_each; intros ?
    | match goal with
      | |- keeps_running (if ?b then _ else _) => destruct b
      | |- keeps_running (match ?x with _ => _ end) => destruct x
      end
    | solve [ auto with keeps ] ].

Lemma keeps_display_row (cfg : RealtimeOrderbookConfig) (l : Level) :
  keeps_running (display_row cfg l).
Proof. unfold display_row. keeps. Qed.

Lemma keeps_display_full_table (data : OrderbookData) :
  keeps_running (display_full_table data).
Proof.
  unfold display_full_table. keeps; apply keeps_display_row.
Qed.

Lemma keeps_display_compact_table (data : OrderbookData) :
  keeps_running (display_compact_table data).
Proof. unfold display_compact_table. keeps. Qed.

Lemma keeps_display_table_format (data : OrderbookData) :
  keeps_running (display_table_format data).
Proof.
  unfold display_table_format.
  apply keeps_bind; [ apply keeps_get_self | intros self ].
  destruct (compact_display (config self)).
  - apply keeps_display_compact_table.
  - apply keeps_display_full_table.
Qed.

Lemma keeps_display_json_format (data : OrderbookData) :
  keeps_running (display_json_format data).
Proof. unfold display_json_format. keeps. Qed.

Lemma keeps_display_csv_format (data : OrderbookData) :
  keeps_running (display_csv_format data).
Proof. unfold display_csv_format. keeps. Qed.

Lemma keeps_check_alerts (data : OrderbookData) :
  keeps_running (check_alerts data).
Proof. unfold check_alerts. keeps. Qed.

Lemma keeps_fetch_and_display_orderbook (env : Environment) :
  keeps_running (fetch_and_display_orderbook env).
Proof.
  unfold fetch_and_display_orderbook.
  apply keeps_bind; [ apply keeps_get_self | intros self ].
  destruct (find_connector env (config self)) as [conn | ];
    [ | apply keeps_logger ].
  destruct (get_order_book conn (trading_pair (config self)))
    as [[orderbook | ] | e]; try apply keeps_logger.
  apply keeps_bind; [ apply keeps_lift | intros data ].
  apply keeps_bind.
  - destruct (json_output (config self)); [ apply keeps_display_json_format | ].
    destruct (csv_output (config self)).
    + apply keeps_display_csv_format.
    + apply keeps_display_table_format.
  - intros _. apply keeps_bind; [ apply keeps_check_alerts | intros _ ].
    keeps.
Qed.

Lemma keeps_on_tick (env : Environment) : keeps_running (on_tick env).
Proof.
  unfold on_tick. apply keeps_bind; [ apply keeps_get_self | intros self ].
  destruct (negb (is_running self)); [ apply keeps_ret | ].
  apply keeps_try_except.
  - apply keeps_fetch_and_display_orderbook.
  - intros e. apply keeps_logger.
Qed.

(** [on_tick] never lets an exception out. *)
Lemma on_tick_returns (env : Environment) (self : RealtimeOrderbook) :
  fst (on_tick env self) = Normal tt.
Proof.
  unfold on_tick, bind, get_self.
  destruct (negb (is_running self)); [ reflexivity | ].
  unfold try_except.
  destruct (fetch_and_display_orderbook env self) as [[[] | e] self'];
    reflexivity.
Qed.

(** A run of ticks goes through all of them and leaves the flag alone. *)
Lemma run_ticks_returns (envs : list Environment) (self : RealtimeOrderbook) :
  fst (run_ticks envs self) = Normal tt /\
  is_running (snd (run_ticks envs self)) = is_running self.
Proof.
  revert self. induction envs as [ | env envs IH ]; intros self; simpl.
  - split; reflexivity.
  - unfold bind. pose proof (on_tick_returns env self) as Hret.
    pose proof (keeps_on_tick env self) as Hrun.
    destruct (on_tick env self) as [[[] | e] self']; simpl in *;
      [ | discriminate Hret ].
    rewrite <- Hrun. apply IH.
Qed.

(** [display_csv_format] returns normally and touches the log only. *)
Lemma display_csv_format_run (data : OrderbookData) (self : RealtimeOrderbook) :
  fst (display_csv_format data self) = Normal tt /\
  log (snd (display_csv_format data self)) =
    log self ++
    (if (update_count self =? 1)%Z then [(INFO, Text csv_header)] else []) ++
    [(INFO, CsvRow data)] /\
  config (snd (display_csv_format data self)) = config self /\
  markets (snd (display_csv_format data self)) = markets self /\
  derivative_markets (snd (display_csv_format data self)) = derivative_markets self /\
  last_update_time (snd (display_csv_format data self)) = last_update_time self /\
  update_count (snd (display_csv_format data self)) = update_count self /\
  is_running (snd (display_csv_format data self)) = is_running self /\
  orderbook_history (snd (display_csv_format data self)) = orderbook_history self.
Proof.
  unfold display_csv_format, bind, get_self.
  destruct (update_count self =? 1)%Z; simpl;
    rewrite <- ?app_assoc; repeat split; reflexivity.
Qed.

Lemma for_each_logger (level : LogLevel) (msgs : list Message)
    (self : RealtimeOrderbook) :
  for_each msgs (fun msg => logger level msg) self =
  (Normal tt, set_log (log self ++ map (pair level) msgs) self).
Proof.
  revert self. induction msgs as [ | msg msgs IH ]; intros self; simpl.
  - rewrite app_nil_r. now destruct self.
  - unfold bind, logger, modify. rewrite IH. simpl.
    now rewrite <- app_assoc.
Qed.

Lemma check_alerts_run (data : OrderbookData) (self : RealtimeOrderbook) :
  check_alerts data self =
  (Normal tt,
   set_log (log self ++ map (pair WARNING) (alerts_of (config self) data)) self).
Proof.
  unfold check_alerts, bind, get_self. apply for_each_logger.
Qed.

(** A tick that gets a book and writes CSV: what it logs and what it
    leaves in the monitor.  The header is logged only when [update_count]
    is 1 when the tick starts, that is on the second counted cycle. *)
Lemma csv_tick (env : Environment) (self : RealtimeOrderbook) (conn : Connector)
    (orderbook : OrderBook) (data : OrderbookData) :
  is_running self = true ->
  find_connector env (config self) = Some conn ->
  get_order_book conn (trading_pair (config self)) = Normal (Some orderbook) ->
  process_orderbook self (now_process env) orderbook = Normal data ->
  json_output (config self) = false ->
  csv_output (config self) = true ->
  on_tick env self =
  (Normal tt,
   mkMonitor (config self) (markets self) (derivative_markets self)
     (Some (now_update env)) (update_count self + 1)%Z true
     (store_history data (orderbook_history self))
     (log self ++
      (if (update_count self =? 1)%Z then [(INFO, Text csv_header)] else []) ++
      [(INFO, CsvRow data)] ++
      map (pair WARNING) (alerts_of (config self) data))).
Proof.
  intros Hrun Hconn Hbook Hdata Hjson Hcsv.
  cbv beta iota zeta delta [on_tick bind get_self]. rewrite Hrun.
  cbv beta iota zeta delta
    [negb try_except fetch_and_display_orderbook bind get_self lift].
  rewrite Hconn, Hbook, Hdata, Hjson, Hcsv.
  destruct (display_csv_format_run data self)
    as [Ho [Hl [Hc [Hm [Hd [Ht [Hu [Hr Hh]]]]]]]].
  destruct (display_csv_format data self) as [o self1].
  simpl in Ho, Hl, Hc, Hm, Hd, Ht, Hu, Hr, Hh. subst o.
  rewrite check_alerts_run.
  cbv beta iota zeta delta [modify].
  unfold set_orderbook_history, set_last_update_time, set_update_count, set_log.
  simpl.
  rewrite Hl, Hc, Hm, Hd, Hu, Hh, Hr, Hrun, <- !app_assoc. reflexivity.
Qed.

(** The handler of [on_tick] is not dead code: an unreadable snapshot
    raises out of [fetch_and_display_orderbook], and so does a negative
    price precision when the table is formatted. *)
Lemma fetch_and_display_orderbook_can_raise :
  fst (fetch_and_display_orderbook failing_env (init (Some csv_config)))
    = Raised (ProviderError "snapshot") /\
  fst (fetch_and_display_orderbook sample_env
         (init (Some (mkConfig "binance" "ETH-USDT" 1 2 "spot" true true true
                        true false None (-1) 4 true false false None None None))))
    = Raised ValueError.
Proof. split; reflexivity. Qed.

Lemma on_tick_logs_the_exception :
  log (snd (on_tick failing_env (init (Some csv_config))))
    = [(ERROR, FetchError (ProviderError "snapshot"))].
Proof. reflexivity. Qed.

End Tick.

(** Claim C8.  Whatever the provider does and whatever exception the
    fetch, process and display sequence raises, [on_tick] returns normally
    and leaves [is_running] as it was. *)
Theorem C8_tick_failure_contained (env : Environment) (self : RealtimeOrderbook) :
  exists self',
    on_tick env self = (Normal tt, self') /\
    is_running self' = is_running self.
Proof.
  exists (snd (on_tick env self)). split.
  - rewrite <- (Tick.on_tick_returns env self). now destruct (on_tick env self).
  - apply Tick.keeps_on_tick.
Qed.

(* ================================================================== *)
(** ** History and CSV header                                           *)
(* ================================================================== *)

Module History.

Lemma store_history_length (data : OrderbookData) (history : list OrderbookData) :
  List.length (store_history data history) =
  if (100 <? List.length history)%nat
  then List.length history
  else S (List.length history).
Proof.
  unfold store_history.
  destruct (100 <? List.length history)%nat eqn:E; rewrite length_app; simpl.
  - apply Nat.ltb_lt in E. destruct history; simpl in *; lia.
  - lia.
Qed.

(** The history never grows beyond 101 entries. *)
Lemma store_history_bound (data : OrderbookData) (history : list OrderbookData) :
  (List.length history <= 101)%nat ->
  (List.length (store_history data history) <= 101)%nat.
Proof.
  intros H. rewrite store_history_length.
  destruct (100 <? List.length history)%nat eqn:E; [ exact H | ].
  apply Nat.ltb_ge in E. lia.
Qed.

(** Nothing is evicted while the history holds 100 entries or fewer. *)
Lemma store_history_keeps_all (data : OrderbookData) (history : list OrderbookData) :
  (List.length history <= 100)%nat ->
  store_history data history = history ++ [data].
Proof.
  intros H. unfold store_history.
  destruct (100 <? List.length history)%nat eqn:E; [ | reflexivity ].
  apply Nat.ltb_lt in E. lia.
Qed.

(** The first 101 appends are all retained, in their order. *)
Lemma appends_retained (entries history : list OrderbookData) :
  (List.length history + List.length entries <= 101)%nat ->
  fold_left (fun h d => store_history d h) entries history = history ++ entries.
Proof.
  revert history. induction entries as [ | d entries IH ]; intros history H; simpl.
  - now rewrite app_nil_r.
  - simpl in H. rewrite store_history_keeps_all by lia.
    rewrite IH by (rewrite length_app; simpl; lia).
    now rewrite <- app_assoc.
Qed.

(** With 101 entries held, an append evicts the oldest and holds 101 again. *)
Lemma store_history_full (data : OrderbookData) (history : list OrderbookData) :
  List.length history = 101%nat ->
  store_history data history = tl history ++ [data] /\
  List.length (store_history data history) = 101%nat.
Proof.
  intros H. rewrite store_history_length. unfold store_history. rewrite H.
  split; reflexivity.
Qed.

End History.

(** Claim C2, the code at 101 appends.  After 101 ticks of a fresh monitor
    the history holds 101 entries, and its oldest entry is the first one
    ever appended (the one processed at update count 0); the length stays
    at 101 from then on, and only the 102nd append evicts the first. *)
Theorem C2_history_holds_101_entries :
  List.length (orderbook_history (after_ticks 101)) = 101%nat /\
  map d_update_count (firstn 1 (orderbook_history (after_ticks 101))) = [0%Z] /\
  List.length (orderbook_history (after_ticks 102)) = 101%nat /\
  map d_update_count (firstn 1 (orderbook_history (after_ticks 102))) = [1%Z].
Proof.
  vm_compute. repeat split.
Qed.

Module Csv.

(** A fresh monitor starts with [update_count] 0, and a tick displays
    before it counts. *)
Lemma fresh_update_count (config : option RealtimeOrderbookConfig) :
  update_count (init config) = 0%Z.
Proof. reflexivity. Qed.

End Csv.

(** Claim C3, the code on its first cycles.  With CSV output on a fresh
    monitor, the first tick logs a data row and no header; the header is
    logged by the second tick, after the first data row; later ticks log
    rows only. *)
Theorem C3_csv_header_on_second_cycle :
  map is_csv_header (log csv_after_first_tick) = [false] /\
  map is_csv_header (log csv_after_second_tick) = [false; true; false] /\
  map is_csv_header (log (after_ticks 4)) = [false; true; false; false; false].
Proof.
  vm_compute. repeat split.
Qed.

(* ================================================================== *)
(** ** Worked examples                                                  *)
(* ================================================================== *)

Module Examples.

(** Ties go to the even neighbour; negative digits round to tens. *)
Example round_ties :
  Py.round (5 # 2) 0 == 2 /\ Py.round (7 # 2) 0 == 4 /\
  Py.round (12345 # 1000) 2 == 1234 # 100 /\ Py.round 1250 (-2) == 1200.
Proof. repeat split. Qed.

(** Bids (100, 2), (99, 5) and asks (101, 3), (102, 1) at depth 2 and
    precision 2. *)
Example reduction_scenario :
  let cfg := mkConfig "binance" "ETH-USDT" 1 2 "spot" true true true true false
               None 2 2 true false false None None None in
  let book := mkOrderBook (Normal ([mkRow 100 2 1; mkRow 99 5 2],
                                   [mkRow 101 3 3; mkRow 102 1 4])) in
  let data := returned (process_orderbook (init (Some cfg)) 7 book) in
  d_best_bid data == 100 /\ d_best_ask data == 101 /\
  d_mid_price data == 201 # 2 /\ d_spread data == 1 /\
  d_spread_percent data == 200 # 201 /\
  d_total_bid_volume data == 7 /\ d_total_ask_volume data == 4.
Proof. repeat split. Qed.

(** Equal prices keep the order of the provider, on both sides. *)
Example stable_sort :
  map update_id
    (Py.sorted price true [mkRow 1 1 1; mkRow 3 1 2; mkRow 1 1 3; mkRow 3 1 4])
    = [2; 4; 1; 3]%Z /\
  map update_id
    (Py.sorted price false [mkRow 1 1 1; mkRow 3 1 2; mkRow 1 1 3; mkRow 3 1 4])
    = [1; 3; 2; 4]%Z.
Proof. split; reflexivity. Qed.

(** A name is classified only when no category is set; the class default
    "spot" counts as set. *)
Example classification :
  connector_type
    (_detect_connector_type (set_connector_type EmptyString
       (mkConfig "Binance_PERPETUAL" "ETH-USDT" 1 2 "x" true true true true false
          None 4 4 true false false None None None))) = "perpetual"%string /\
  connector_type
    (_detect_connector_type (set_connector_type EmptyString default_config))
    = "spot"%string /\
  connector_type
    (_detect_connector_type
       (mkConfig "binance_perpetual" "ETH-USDT" 1 2 "spot" true true true true
          false None 4 4 true false false None None None)) = "spot"%string.
Proof. repeat split. Qed.

End Examples.

(* ================================================================== *)
(** ** What a tick does to the monitor                                  *)
(* ================================================================== *)

Module Effects.

Lemma set_log_same (self : RealtimeOrderbook) :
  set_log (log self ++ []) self = self.
Proof. destruct self. unfold set_log. simpl. now rewrite app_nil_r. Qed.

Lemma set_log_twice (self : RealtimeOrderbook) (r1 r2 : list LogRecord) :
  set_log (log (set_log (log self ++ r1) self) ++ r2)
    (set_log (log self ++ r1) self) =
  set_log (log self ++ r1 ++ r2) self.
Proof. unfold set_log. simpl. now rewrite <- app_assoc. Qed.

Lemma logs_ret {A : Type} (a : A) : logs_only (ret a).
Proof. intros self. exists []. simpl. now rewrite set_log_same. Qed.

Lemma logs_lift {A : Type} (o : Outcome A) : logs_only (lift o).
Proof. intros self. exists []. simpl. now rewrite set_log_same. Qed.

Lemma logs_get_self : logs_only get_self.
Proof. intros self. exists []. simpl. now rewrite set_log_same. Qed.

Lemma logs_logger (level : LogLevel) (msg : Message) :
  logs_only (logger level msg).
Proof. intros self. exists [(level, msg)]. reflexivity. Qed.

Lemma logs_bind {A B : Type} (c : M A) (k : A -> M B) :
  logs_only c -> (forall a, logs_only (k a)) -> logs_only (bind c k).
Proof.
  intros Hc Hk self. unfold bind. destruct (Hc self) as [r1 H1].
  destruct (c self) as [[a | e] self1]; simpl in *.
  - destruct (Hk a self1) as [r2 H2]. exists (r1 ++ r2).
    rewrite H2, H1. apply set_log_twice.
  - now exists r1.
Qed.

Lemma logs_for_each {A : Type} (xs : list A) (body : A -> M unit) :
  (forall x, logs_only (body x)) -> logs_only (for_each xs body).
Proof.
  intros Hbody. induction xs as [ | x xs IH ]; simpl.
  - apply logs_ret.
  - apply logs_bind; auto.
Qed.

Create HintDb logs.
#[local] Hint Resolve logs_ret logs_lift logs_get_self logs_logger : logs.

Ltac logs :=
  repeat first
    [ apply logs_bind; [ | intros ? ]
    | apply logs_for_each; intros ?
    | match goal with
      | |- logs_only (if ?b then _ else _) => destruct b
      end
    | solve [ auto with logs ] ].

Lemma logs_display_full_table (data : OrderbookData) :
  logs_only (display_full_table data).
Proof. unfold display_full_table. logs. Qed.

Lemma logs_display_compact_table (data : OrderbookData) :
  logs_only (display_compact_table data).
Proof. unfold display_compact_table. logs. Qed.

Lemma logs_display_table_format (data : OrderbookData) :
  logs_only (display_table_format data).
Proof.
  unfold display_table_format.
  apply logs_bind; [ apply logs_get_self | intros self ].
  destruct (compact_display (config self)).
  - apply logs_display_compact_table.
  - apply logs_display_full_table.
Qed.

Lemma logs_display_json_format (data : OrderbookData) :
  logs_only (display_json_format data).
Proof. unfold display_json_format. logs. Qed.

Lemma logs_display_csv_format (data : OrderbookData) :
  logs_only (display_csv_format data).
Proof. unfold display_csv_format. logs. Qed.

Lemma logs_check_alerts (data : OrderbookData) :
  logs_only (check_alerts data).
Proof. unfold check_alerts. logs. Qed.

(** The display chosen by the output options, then the alerts. *)
Lemma logs_display_and_alerts (cfg : RealtimeOrderbookConfig) (data : OrderbookData) :
  logs_only
    ((if json_output cfg then display_json_format data
      else if csv_output cfg then display_csv_format data
      else display_table_format data) ;;;
     check_alerts data).
Proof.
  apply logs_bind; [ | intros _; apply logs_check_alerts ].
  destruct (json_output cfg); [ apply logs_display_json_format | ].
  destruct (csv_output cfg).
  - apply logs_display_csv_format.
  - apply logs_display_table_format.
Qed.

(** More records after a tick's effect still make a tick's effect. *)
Lemma tick_effect_more (env : Environment) (self self1 : RealtimeOrderbook)
    (records : list LogRecord) :
  tick_effect env self self1 ->
  tick_effect env self (set_log (log self1 ++ records) self1).
Proof.
  intros [r1 | r1 orderbook data Hdata].
  - rewrite set_log_twice. apply tick_not_counted.
  - unfold set_log. simpl. rewrite <- app_assoc.
    now apply (tick_counted env self _ orderbook data).
Qed.

Lemma fetch_effect (env : Environment) (self : RealtimeOrderbook) :
  tick_effect env self (snd (fetch_and_display_orderbook env self)).
Proof.
  unfold fetch_and_display_orderbook.
  cbv beta iota zeta delta [bind get_self].
  destruct (find_connector env (config self)) as [conn | ];
    [ | apply (tick_not_counted env self [_]) ].
  destruct (get_order_book conn (trading_pair (config self)))
    as [[orderbook | ] | e];
    try apply (tick_not_counted env self [_]).
  unfold lift.
  destruct (process_orderbook self (now_process env) orderbook)
    as [data | e] eqn:Hdata.
  - pose proof (logs_display_and_alerts (config self) data self) as Hlogs.
    unfold bind in Hlogs. destruct Hlogs as [records Hrecords].
    destruct ((if json_output (config self) then display_json_format data
               else if csv_output (config self) then display_csv_format data
               else display_table_format data) self) as [[[] | e] self1].
    + destruct (check_alerts data self1) as [[[] | e] self2];
        simpl in Hrecords; subst self2.
      * simpl. apply (tick_counted env self records orderbook data Hdata).
      * simpl. apply tick_not_counted.
    + simpl in *. subst self1. apply tick_not_counted.
  - simpl. rewrite <- (set_log_same self) at 2. apply tick_not_counted.
Qed.

End Effects.

Lemma tick_effect_of_on_tick (env : Environment) (self : RealtimeOrderbook) :
  tick_effect env self (snd (on_tick env self)).
Proof.
  unfold on_tick. cbv beta iota zeta delta [bind get_self].
  destruct (negb (is_running self)).
  - simpl. rewrite <- (Effects.set_log_same self) at 2. apply tick_not_counted.
  - unfold try_except.
    pose proof (Effects.fetch_effect env self) as Hfetch.
    destruct (fetch_and_display_orderbook env self) as [[[] | e] self1];
      simpl in *; [ exact Hfetch | ].
    now apply Effects.tick_effect_more.
Qed.

(** X1.  One [on_tick], whatever the provider does, either only adds
    records to the log, or counts one update: then [update_count] grows
    by one, [last_update_time] is the time read at the end of the tick,
    and the data processed at the old count goes into the history through
    [store_history].  The configuration, the market tables and
    [is_running] are never touched, and the records already logged stay
    as they are. *)
Theorem on_tick_effect (env : Environment) (self : RealtimeOrderbook) :
  tick_effect env self (snd (on_tick env self)).
Proof.
  exact (tick_effect_of_on_tick env self).
Qed.

Module Runs.

Lemma after_run_cons (env : Environment) (envs : list Environment)
    (self : RealtimeOrderbook) :
  after_run (env :: envs) self = after_run envs (snd (on_tick env self)).
Proof.
  unfold after_run. simpl. unfold bind.
  pose proof (Tick.on_tick_returns env self) as Hret.
  destruct (on_tick env self) as [[[] | e] self1]; simpl in *;
    [ reflexivity | discriminate Hret ].
Qed.

Lemma last_store_history (data : OrderbookData) (history : list OrderbookData) :
  last (map Some (store_history data history)) None = Some data.
Proof.
  unfold store_history. rewrite map_app. simpl. apply last_last.
Qed.

Lemma processed_update_count (self : RealtimeOrderbook) (now : Z)
    (orderbook : OrderBook) (data : OrderbookData) :
  process_orderbook self now orderbook = Normal data ->
  d_update_count data = update_count self.
Proof.
  intros H. destruct (Reducer.process_orderbook_normal _ _ _ _ H)
    as [bids [asks [_ [_ [_ ->]]]]].
  reflexivity.
Qed.

Lemma on_tick_invariant (env : Environment) (self : RealtimeOrderbook) :
  counted_invariant self -> counted_invariant (snd (on_tick env self)).
Proof.
  intros Hinv.
  destruct (tick_effect_of_on_tick env self) as [records | records orderbook data Hdata].
  - exact Hinv.
  - destruct Hinv as [Hcount [Hlen [Hlast Hstatus]]].
    unfold counted_invariant, get_current_data, format_status. simpl.
    rewrite last_store_history, History.store_history_length.
    repeat split; try lia.
    + destruct (100 <? List.length (orderbook_history self))%nat eqn:E;
        [ apply Nat.ltb_lt in E | apply Nat.ltb_ge in E ]; lia.
    + rewrite (processed_update_count _ _ _ _ Hdata). lia.
    + discriminate.
Qed.

Lemma init_invariant (config : option RealtimeOrderbookConfig) :
  counted_invariant (init config).
Proof.
  unfold counted_invariant, get_current_data, format_status. simpl.
  repeat split; reflexivity.
Qed.

Lemma after_run_invariant (envs : list Environment) (self : RealtimeOrderbook) :
  counted_invariant self -> counted_invariant (after_run envs self).
Proof.
  revert self. induction envs as [ | env envs IH ]; intros self Hinv.
  - exact Hinv.
  - rewrite after_run_cons. apply IH. now apply on_tick_invariant.
Qed.

Lemma after_run_config (envs : list Environment) (self : RealtimeOrderbook) :
  config (after_run envs self) = config self /\
  markets (after_run envs self) = markets self /\
  derivative_markets (after_run envs self) = derivative_markets self /\
  exists records, log (after_run envs self) = log self ++ records.
Proof.
  revert self. induction envs as [ | env envs IH ]; intros self.
  - repeat split; try reflexivity. exists []. now rewrite app_nil_r.
  - rewrite after_run_cons.
    destruct (IH (snd (on_tick env self))) as [Hc [Hm [Hd [r2 Hl]]]].
    rewrite Hc, Hm, Hd, Hl.
    destruct (tick_effect_of_on_tick env self) as [r1 | r1 orderbook data Hdata]; simpl;
      repeat split; try reflexivity; exists (r1 ++ r2); now rewrite app_assoc.
Qed.

End Runs.

(** X2.  From its creation on and through any run of ticks, a monitor
    keeps its count non-negative, holds in its history exactly one entry
    per counted update up to 101, has as its current data the entry
    processed at the count before the current one (none at count 0), and
    reports "Initializing" in [format_status] exactly while no update has
    been counted. *)
Theorem run_keeps_invariant (config : option RealtimeOrderbookConfig)
    (envs : list Environment) :
  counted_invariant (after_run envs (init config)).
Proof.
  apply Runs.after_run_invariant, Runs.init_invariant.
Qed.

(** X3.  A run of ticks never changes the configuration or the market
    tables, and it only appends to the log. *)
Theorem run_keeps_configuration (envs : list Environment) (self : RealtimeOrderbook) :
  config (after_run envs self) = config self /\
  markets (after_run envs self) = markets self /\
  derivative_markets (after_run envs self) = derivative_markets self /\
  exists records, log (after_run envs self) = log self ++ records.
Proof.
  apply Runs.after_run_config.
Qed.

(** X4.  The history is a window on the entries appended: after any
    sequence of appends to an empty history it holds the last 101 of
    them, in the order they were appended. *)
Theorem history_is_last_101 (entries : list OrderbookData) :
  fold_left (fun h d => store_history d h) entries [] =
  skipn (List.length entries - 101) entries.
Proof.
  assert (H : forall history,
             (List.length history <= 101)%nat ->
             fold_left (fun h d => store_history d h) entries history =
             skipn (List.length (history ++ entries) - 101) (history ++ entries)).
  { induction entries as [ | d entries IH ]; intros history Hlen; simpl.
    - rewrite app_nil_r.
      replace (List.length history - 101)%nat with 0%nat by lia. reflexivity.
    - rewrite IH by now apply History.store_history_bound.
      destruct (Nat.le_gt_cases (List.length history) 100) as [Hle | Hgt].
      + rewrite History.store_history_keeps_all by exact Hle.
        now rewrite <- app_assoc.
      + destruct (History.store_history_full d history) as [Heq _]; [ lia | ].
        rewrite Heq. destruct history as [ | x history ]; [ simpl in Hgt; lia | ].
        simpl tl. rewrite <- app_assoc. simpl app. simpl in Hlen, Hgt.
        assert (Hn : (101 <= List.length (history ++ d :: entries))%nat)
          by (rewrite length_app; simpl; lia).
        remember (history ++ d :: entries) as l. simpl List.length.
        replace (S (List.length l) - 101)%nat
          with (S (List.length l - 101))%nat by lia.
        reflexivity. }
  apply (H []). simpl. lia.
Qed.

Lemma stopped_run (envs : list Environment)
    (self : RealtimeOrderbook) :
  is_running self = false ->
  run_ticks envs self = (Normal tt, self).
Proof.
  intros Hstop. induction envs as [ | env envs IH ]; simpl.
  - reflexivity.
  - assert (Htick : on_tick env self = (Normal tt, self)).
    { unfold on_tick. cbv beta iota zeta delta [bind get_self].
      now rewrite Hstop. }
    unfold bind. rewrite Htick. exact IH.
Qed.

(** X5.  A monitor that is not running ignores its ticks: a run of any
    ticks returns normally and leaves the monitor, log included, exactly
    as it was. *)
Theorem stopped_monitor_ignores_ticks (envs : list Environment)
    (self : RealtimeOrderbook) :
  is_running self = false ->
  run_ticks envs self = (Normal tt, self).
Proof.
  exact (stopped_run envs self).
Qed.

Lemma stopped_monitor_ignores_ticks_witness :
  run_ticks [sample_env; failing_env] stopped_monitor = (Normal tt, stopped_monitor).
Proof.
  apply (stopped_monitor_ignores_ticks [sample_env; failing_env] stopped_monitor).
  reflexivity.
Defined.

(* ================================================================== *)
(** ** The displays                                                     *)
(* ================================================================== *)

Module Display.

Lemma format_fixed_ok (x : Q) (precision : Z) :
  (0 <= precision < 2 ^ 31)%Z -> format_fixed x precision = Normal x.
Proof.
  intros [Hlow Hhigh]. unfold format_fixed.
  apply Z.ltb_ge in Hlow. apply Z.leb_gt in Hhigh. now rewrite Hlow, Hhigh.
Qed.

Lemma format_fixed_too_big (x : Q) (precision : Z) :
  (2 ^ 31 <= precision)%Z -> format_fixed x precision = Raised ValueError.
Proof.
  intros H. unfold format_fixed. apply Z.leb_le in H. rewrite H.
  now rewrite orb_true_r.
Qed.

Lemma format_fixed_negative (x : Q) (precision : Z) :
  (precision < 0)%Z -> format_fixed x precision = Raised ValueError.
Proof.
  intros H. unfold format_fixed. apply Z.ltb_lt in H. now rewrite H.
Qed.

Lemma display_row_run (cfg : RealtimeOrderbookConfig) (l : Level)
    (self : RealtimeOrderbook) :
  (0 <= price_precision cfg < 2 ^ 31)%Z ->
  (0 <= volume_precision cfg < 2 ^ 31)%Z ->
  display_row cfg l self =
  (Normal tt, set_log (log self ++ [row_record cfg l]) self).
Proof.
  intros Hp Hv. unfold display_row, row_record.
  cbv beta iota zeta delta [bind lift ret].
  rewrite (format_fixed_ok _ _ Hp).
  destruct (show_volumes cfg); [ rewrite (format_fixed_ok _ _ Hv) | ];
    reflexivity.
Qed.

Lemma display_rows_run (cfg : RealtimeOrderbookConfig) (rows : list Level)
    (self : RealtimeOrderbook) :
  (0 <= price_precision cfg < 2 ^ 31)%Z ->
  (0 <= volume_precision cfg < 2 ^ 31)%Z ->
  for_each rows (display_row cfg) self =
  (Normal tt, set_log (log self ++ map (row_record cfg) rows) self).
Proof.
  intros Hp Hv. revert self. induction rows as [ | l rows IH ]; intros self; simpl.
  - now rewrite Effects.set_log_same.
  - unfold bind. rewrite (display_row_run cfg l self Hp Hv), IH.
    now rewrite Effects.set_log_twice.
Qed.

Lemma logger_run (level : LogLevel) (msg : Message) (self : RealtimeOrderbook) :
  logger level msg self = (Normal tt, set_log (log self ++ [(level, msg)]) self).
Proof. reflexivity. Qed.

(** With precisions that are not negative the full table is formatted
    without error and logs [full_table_records]. *)
Lemma display_full_table_run (data : OrderbookData) (self : RealtimeOrderbook) :
  (0 <= price_precision (config self) < 2 ^ 31)%Z ->
  (0 <= volume_precision (config self) < 2 ^ 31)%Z ->
  display_full_table data self =
  (Normal tt, set_log (log self ++ full_table_records (config self) data) self).
Proof.
  intros Hp Hv. unfold display_full_table, full_table_records.
  cbv beta iota zeta delta [bind get_self lift ret].
  assert (Hcfg : forall l, config (set_log l self) = config self) by reflexivity.
  destruct (show_mid_price (config self)); destruct (show_spreads (config self));
    repeat (progress
              (cbv beta iota delta [orb];
               rewrite ?logger_run, ?(format_fixed_ok _ _ Hp),
                 ?(format_fixed_ok _ _ Hv), ?Hcfg,
                 ?(display_rows_run (config self) _ _ Hp Hv),
                 ?Effects.set_log_twice));
    rewrite <- ?app_assoc; reflexivity.
Qed.

End Display.

Module Outcomes.

Lemma snapshot_data_inv (env : Environment) (self : RealtimeOrderbook)
    (data : OrderbookData) :
  get_orderbook_snapshot env self = Normal (inr data) ->
  exists conn orderbook,
    find_connector env (config self) = Some conn /\
    get_order_book conn (trading_pair (config self)) = Normal (Some orderbook) /\
    process_orderbook self (now_process env) orderbook = Normal data.
Proof.
  unfold get_orderbook_snapshot.
  destruct (find_connector env (config self)) as [conn | ] eqn:Hconn;
    [ | discriminate ].
  destruct (get_order_book conn (trading_pair (config self)))
    as [[orderbook | ] | e] eqn:Hbook; try discriminate.
  intros H. exists conn, orderbook. split; [ reflexivity | ].
  split; [ exact Hbook | ].
  destruct (process_orderbook self (now_process env) orderbook) as [d | e];
    simpl in H; [ | discriminate H ].
  injection H as <-. reflexivity.
Qed.

(** A tick whose display returns: it counts the update. *)
Lemma counted_tick (env : Environment) (self : RealtimeOrderbook)
    (data : OrderbookData) (records : list LogRecord) :
  is_running self = true ->
  get_orderbook_snapshot env self = Normal (inr data) ->
  selected_display (config self) data self =
    (Normal tt, set_log (log self ++ records) self) ->
  on_tick env self =
  (Normal tt,
   mkMonitor (config self) (markets self) (derivative_markets self)
     (Some (now_update env)) (update_count self + 1)%Z true
     (store_history data (orderbook_history self))
     (log self ++ records ++
      map (pair WARNING) (alerts_of (config self) data))).
Proof.
  intros Hrun Hsnap Hdisplay.
  destruct (snapshot_data_inv env self data Hsnap)
    as [conn [orderbook [Hconn [Hbook Hdata]]]].
  unfold selected_display in Hdisplay.
  cbv beta iota zeta delta [on_tick bind get_self]. rewrite Hrun.
  cbv beta iota zeta delta
    [negb try_except fetch_and_display_orderbook bind get_self lift].
  rewrite Hconn, Hbook, Hdata, Hdisplay, Tick.check_alerts_run.
  cbv beta iota zeta delta [modify].
  unfold set_orderbook_history, set_last_update_time, set_update_count, set_log.
  simpl. now rewrite Hrun, <- app_assoc.
Qed.

(** A tick whose display raises: the exception is logged and nothing is
    counted. *)
Lemma failed_display_tick (env : Environment) (self : RealtimeOrderbook)
    (data : OrderbookData) (e : Exception) :
  is_running self = true ->
  get_orderbook_snapshot env self = Normal (inr data) ->
  fst (selected_display (config self) data self) = Raised e ->
  exists records,
    on_tick env self =
    (Normal tt, set_log (log self ++ records ++ [(ERROR, FetchError e)]) self).
Proof.
  intros Hrun Hsnap Hdisplay.
  destruct (snapshot_data_inv env self data Hsnap)
    as [conn [orderbook [Hconn [Hbook Hdata]]]].
  assert (Hlogs : logs_only (selected_display (config self) data)).
  { unfold selected_display.
    destruct (json_output (config self));
      [ apply Effects.logs_display_json_format | ].
    destruct (csv_output (config self)).
    - apply Effects.logs_display_csv_format.
    - apply Effects.logs_display_table_format. }
  destruct (Hlogs self) as [records Hrecords].
  unfold selected_display in *.
  cbv beta iota zeta delta [on_tick bind get_self]. rewrite Hrun.
  cbv beta iota zeta delta
    [negb try_except fetch_and_display_orderbook bind get_self lift].
  rewrite Hconn, Hbook, Hdata.
  destruct ((if json_output (config self) then display_json_format data
             else if csv_output (config self) then display_csv_format data
             else display_table_format data) self) as [o self1].
  simpl in Hdisplay, Hrecords. subst o self1.
  exists records. unfold logger, modify. rewrite Effects.set_log_twice.
  reflexivity.
Qed.

End Outcomes.

(** X6.  JSON output takes precedence: with [json_output] set, a running
    tick that gets its data logs the JSON document and then the alerts,
    counts the update and stores the data, whatever [csv_output],
    [compact_display] and the precisions are; no CSV header or row and no
    table line is logged. *)
Theorem json_takes_precedence (env : Environment) (self : RealtimeOrderbook)
    (data : OrderbookData) :
  is_running self = true ->
  get_orderbook_snapshot env self = Normal (inr data) ->
  json_output (config self) = true ->
  on_tick env self =
  (Normal tt,
   mkMonitor (config self) (markets self) (derivative_markets self)
     (Some (now_update env)) (update_count self + 1)%Z true
     (store_history data (orderbook_history self))
     (log self ++ [(INFO, JsonDocument data)] ++
      map (pair WARNING) (alerts_of (config self) data))).
Proof.
  intros Hrun Hsnap Hjson.
  apply (Outcomes.counted_tick env self data [(INFO, JsonDocument data)] Hrun Hsnap).
  unfold selected_display. now rewrite Hjson.
Qed.

Lemma json_takes_precedence_witness :
  on_tick sample_env (init (Some json_csv_config)) =
  (Normal tt,
   mkMonitor (config (init (Some json_csv_config)))
     (markets (init (Some json_csv_config)))
     (derivative_markets (init (Some json_csv_config)))
     (Some (now_update sample_env))
     (update_count (init (Some json_csv_config)) + 1)%Z true
     (store_history
        (returned (process_orderbook (init (Some json_csv_config)) 7 sample_book))
        (orderbook_history (init (Some json_csv_config))))
     (log (init (Some json_csv_config)) ++
      [(INFO, JsonDocument
                (returned (process_orderbook (init (Some json_csv_config)) 7
                             sample_book)))] ++
      map (pair WARNING)
        (alerts_of (config (init (Some json_csv_config)))
           (returned (process_orderbook (init (Some json_csv_config)) 7
                        sample_book))))).
Proof.
  apply (json_takes_precedence sample_env (init (Some json_csv_config))
           (returned (process_orderbook (init (Some json_csv_config)) 7 sample_book)));
    reflexivity.
Defined.

Lemma skipped_tick_run (env : Environment) (self : RealtimeOrderbook)
    (err : SnapshotError) :
  is_running self = true ->
  get_orderbook_snapshot env self = Normal (inl err) ->
  on_tick env self =
  (Normal tt,
   set_log (log self ++ [(skip_level err, skip_message (config self) err)]) self).
Proof.
  intros Hrun Hsnap. unfold get_orderbook_snapshot in Hsnap.
  cbv beta iota zeta delta [on_tick bind get_self]. rewrite Hrun.
  cbv beta iota zeta delta
    [negb try_except fetch_and_display_orderbook bind get_self lift].
  destruct (find_connector env (config self)) as [conn | ].
  - destruct (get_order_book conn (trading_pair (config self)))
      as [[orderbook | ] | e].
    + destruct (process_orderbook self (now_process env) orderbook);
        discriminate Hsnap.
    + injection Hsnap as <-. reflexivity.
    + injection Hsnap as <-. reflexivity.
  - injection Hsnap as <-. reflexivity.
Qed.

(** X7.  When [get_orderbook_snapshot] answers with an error dict
    (connector not found, provider failure, no data), a running tick in
    the same environment is skipped: it logs exactly one record about the
    same cause, a warning for missing data and an error otherwise, and
    changes nothing else. *)
Theorem snapshot_error_skips_tick (env : Environment) (self : RealtimeOrderbook)
    (err : SnapshotError) :
  is_running self = true ->
  get_orderbook_snapshot env self = Normal (inl err) ->
  on_tick env self =
  (Normal tt,
   set_log (log self ++ [(skip_level err, skip_message (config self) err)]) self).
Proof.
  exact (skipped_tick_run env self err).
Qed.

Lemma snapshot_error_skips_tick_witness :
  on_tick empty_env (init None) =
  (Normal tt,
   set_log (log (init None) ++
            [(skip_level (SnapshotConnectorNotFound "binance_paper_trade" "spot"),
              skip_message (config (init None))
                (SnapshotConnectorNotFound "binance_paper_trade" "spot"))])
     (init None)).
Proof.
  apply (snapshot_error_skips_tick empty_env (init None)
           (SnapshotConnectorNotFound "binance_paper_trade" "spot")).
  - reflexivity.
  - reflexivity.
Defined.

Lemma raised_tick_run (env : Environment) (self : RealtimeOrderbook)
    (e : Exception) :
  is_running self = true ->
  get_orderbook_snapshot env self = Raised e ->
  on_tick env self =
  (Normal tt, set_log (log self ++ [(ERROR, FetchError e)]) self).
Proof.
  intros Hrun Hsnap. unfold get_orderbook_snapshot in Hsnap.
  cbv beta iota zeta delta [on_tick bind get_self]. rewrite Hrun.
  cbv beta iota zeta delta
    [negb try_except fetch_and_display_orderbook bind get_self lift].
  destruct (find_connector env (config self)) as [conn | ]; [ | discriminate ].
  destruct (get_order_book conn (trading_pair (config self)))
    as [[orderbook | ] | e']; try discriminate.
  destruct (process_orderbook self (now_process env) orderbook) as [d | e'];
    [ discriminate | ].
  simpl in Hsnap. injection Hsnap as ->. reflexivity.
Qed.



Module Tables.

Lemma display_compact_table_run (data : OrderbookData) (self : RealtimeOrderbook) :
  (0 <= price_precision (config self) < 2 ^ 31)%Z ->
  display_compact_table data self =
  (Normal tt,
   set_log (log self ++
            [(INFO, CompactLine (d_timestamp data) (d_trading_pair data)
                      (d_best_bid data) (d_best_ask data) (d_mid_price data)
                      (d_spread_percent data))]) self).
Proof.
  intros Hp. unfold display_compact_table.
  cbv beta iota zeta delta [bind get_self lift].
  rewrite !(Display.format_fixed_ok _ _ Hp). reflexivity.
Qed.

Lemma display_compact_table_raises (data : OrderbookData) (self : RealtimeOrderbook) :
  (price_precision (config self) < 0)%Z ->
  fst (display_compact_table data self) = Raised ValueError.
Proof.
  intros Hp. unfold display_compact_table.
  cbv beta iota zeta delta [bind get_self lift].
  rewrite !(Display.format_fixed_negative _ _ Hp). reflexivity.
Qed.

Lemma format_fixed_cases (x : Q) (precision : Z) :
  format_fixed x precision = Normal x \/
  format_fixed x precision = Raised ValueError.
Proof.
  unfold format_fixed.
  destruct ((precision <? 0)%Z || (2 ^ 31 <=? precision)%Z); auto.
Qed.

(** The rows of a table raise nothing but [ValueError]. *)
Lemma display_rows_outcome (cfg : RealtimeOrderbookConfig) (rows : list Level)
    (self : RealtimeOrderbook) :
  fst (for_each rows (display_row cfg) self) = Normal tt \/
  fst (for_each rows (display_row cfg) self) = Raised ValueError.
Proof.
  revert self. induction rows as [ | l rows IH ]; intros self; simpl.
  - now left.
  - unfold bind.
    destruct (display_row cfg l self) as [[[] | e] self1] eqn:Hrow.
    + apply IH.
    + right. simpl. f_equal. revert Hrow. unfold display_row.
      cbv beta iota zeta delta [bind lift ret].
      destruct (format_fixed_cases (lv_price l) (price_precision cfg)) as [-> | ->];
        [ | intros H; now injection H as <- ].
      destruct (show_volumes cfg).
      * destruct (format_fixed_cases (lv_volume l) (volume_precision cfg))
          as [-> | ->]; [ discriminate | intros H; now injection H as <- ].
      * discriminate.
Qed.

Lemma display_full_table_raises (data : OrderbookData) (self : RealtimeOrderbook) :
  (price_precision (config self) < 0)%Z ->
  fst (display_full_table data self) = Raised ValueError.
Proof.
  intros Hp. unfold display_full_table.
  cbv beta iota zeta delta [bind get_self lift ret].
  assert (Hcfg : forall l s, config (set_log l s) = config s) by reflexivity.
  rewrite !Display.logger_run.
  destruct (show_mid_price (config self)); destruct (show_spreads (config self));
    cbv beta iota delta [orb];
    rewrite ?(Display.format_fixed_negative _ _ Hp); try reflexivity.
  destruct (format_fixed_cases (d_total_ask_volume data)
              (volume_precision (config self))) as [-> | ->];
    [ | reflexivity ].
  cbv beta iota. rewrite !Display.logger_run. cbv beta iota.
  match goal with
  | |- context [ for_each ?rows ?body ?s ] =>
      pose proof (display_rows_outcome (config self) rows s) as Hrows;
      destruct (for_each rows body s) as [[[] | e] s1]
  end; simpl in Hrows.
  - reflexivity.
  - destruct Hrows as [Hrows | Hrows]; [ discriminate Hrows | ].
    simpl. exact Hrows.
Qed.

Lemma display_table_format_raises (data : OrderbookData) (self : RealtimeOrderbook) :
  (price_precision (config self) < 0)%Z ->
  fst (display_table_format data self) = Raised ValueError.
Proof.
  intros Hp. unfold display_table_format.
  cbv beta iota zeta delta [bind get_self].
  destruct (compact_display (config self)).
  - now apply display_compact_table_raises.
  - now apply display_full_table_raises.
Qed.

Lemma display_csv_format_eq (data : OrderbookData) (self : RealtimeOrderbook) :
  display_csv_format data self =
  (Normal tt,
   set_log (log self ++
            (if (update_count self =? 1)%Z then [(INFO, Text csv_header)] else []) ++
            [(INFO, CsvRow data)]) self).
Proof.
  unfold display_csv_format. cbv beta iota zeta delta [bind get_self ret].
  destruct (update_count self =? 1)%Z; rewrite ?Display.logger_run;
    rewrite ?Effects.set_log_twice; reflexivity.
Qed.

Lemma filter_rows_map (cfg : RealtimeOrderbookConfig) (levels : list Level) :
  filter is_table_row (map (row_record cfg) levels) = map (row_record cfg) levels.
Proof.
  induction levels as [ | l levels IH ]; simpl; [ reflexivity | now rewrite IH ].
Qed.

End Tables.

(** X9.  With precisions that are not negative the full table is
    formatted without error, and its level rows are at most five per
    side whatever the configured depth: the last five asks of the reduced
    list, highest price first, and then the first five bids. *)
Theorem full_table_rows (data : OrderbookData) (self : RealtimeOrderbook) :
  (0 <= price_precision (config self) < 2 ^ 31)%Z ->
  (0 <= volume_precision (config self) < 2 ^ 31)%Z ->
  exists records,
    display_full_table data self =
      (Normal tt, set_log (log self ++ records) self) /\
    filter is_table_row records =
      map (row_record (config self))
        (rev (Py.slice_last 5 (d_asks data)) ++ firstn 5 (d_bids data)) /\
    (List.length (filter is_table_row records) <= 10)%nat.
Proof.
  intros Hp Hv. exists (full_table_records (config self) data).
  split; [ now apply Display.display_full_table_run | ].
  assert (Hrows :
    filter is_table_row (full_table_records (config self) data) =
    map (row_record (config self))
      (rev (Py.slice_last 5 (d_asks data)) ++ firstn 5 (d_bids data))).
  { unfold full_table_records. rewrite !filter_app, !Tables.filter_rows_map.
    destruct (show_mid_price (config self) || show_spreads (config self));
      simpl; now rewrite app_nil_r, map_app. }
  split; [ exact Hrows | ].
  rewrite Hrows, length_map, length_app, length_rev.
  unfold Py.slice_last. rewrite length_skipn, length_firstn. lia.
Qed.

Lemma full_table_rows_witness :
  exists records,
    display_full_table sample_data (init (Some (config_with 2 None))) =
      (Normal tt,
       set_log (log (init (Some (config_with 2 None))) ++ records)
         (init (Some (config_with 2 None)))) /\
    filter is_table_row records =
      map (row_record (config (init (Some (config_with 2 None)))))
        (rev (Py.slice_last 5 (d_asks sample_data)) ++
         firstn 5 (d_bids sample_data)) /\
    (List.length (filter is_table_row records) <= 10)%nat.
Proof.
  apply (full_table_rows sample_data (init (Some (config_with 2 None))));
    simpl; lia.
Defined.

(** X10.  In table mode (neither JSON nor CSV) a negative price precision
    makes every tick that gets its data fail while formatting: the
    [ValueError] is caught and logged as the last record, no update is
    counted and nothing is stored. *)
Theorem negative_precision_fails_table_tick (env : Environment)
    (self : RealtimeOrderbook) (data : OrderbookData) :
  is_running self = true ->
  get_orderbook_snapshot env self = Normal (inr data) ->
  json_output (config self) = false ->
  csv_output (config self) = false ->
  (price_precision (config self) < 0)%Z ->
  exists records,
    on_tick env self =
    (Normal tt,
     set_log (log self ++ records ++ [(ERROR, FetchError ValueError)]) self).
Proof.
  intros Hrun Hsnap Hjson Hcsv Hp.
  apply (Outcomes.failed_display_tick env self data ValueError Hrun Hsnap).
  unfold selected_display. rewrite Hjson, Hcsv.
  now apply Tables.display_table_format_raises.
Qed.

Lemma negative_precision_fails_table_tick_witness :
  exists records,
    on_tick sample_env (init (Some bad_precision_config)) =
    (Normal tt,
     set_log (log (init (Some bad_precision_config)) ++ records ++
              [(ERROR, FetchError ValueError)])
       (init (Some bad_precision_config))).
Proof.
  apply (negative_precision_fails_table_tick sample_env
           (init (Some bad_precision_config))
           (returned (process_orderbook (init (Some bad_precision_config)) 7
                        sample_book)));
    reflexivity.
Defined.

(** X11.  A running tick counts its update whenever
    [get_orderbook_snapshot] would return data and the output is JSON or
    CSV, or the precisions are not negative: the count grows by one, the
    update time is recorded, and [get_current_data] then returns exactly
    the data [get_orderbook_snapshot] returned. *)
Theorem tick_stores_snapshot_data (env : Environment) (self : RealtimeOrderbook)
    (data : OrderbookData) :
  is_running self = true ->
  get_orderbook_snapshot env self = Normal (inr data) ->
  json_output (config self) || csv_output (config self) = true \/
  ((0 <= price_precision (config self) < 2 ^ 31)%Z /\
   (0 <= volume_precision (config self) < 2 ^ 31)%Z) ->
  fst (on_tick env self) = Normal tt /\
  update_count (snd (on_tick env self)) = (update_count self + 1)%Z /\
  last_update_time (snd (on_tick env self)) = Some (now_update env) /\
  get_current_data (snd (on_tick env self)) = Some data.
Proof.
  intros Hrun Hsnap Hmode.
  assert (Hdisplay : exists records,
             selected_display (config self) data self =
             (Normal tt, set_log (log self ++ records) self)).
  { unfold selected_display.
    destruct (json_output (config self)) eqn:Hjson.
    - eexists. apply Display.logger_run.
    - destruct (csv_output (config self)) eqn:Hcsv.
      + eexists. apply Tables.display_csv_format_eq.
      + destruct Hmode as [Hmode | [Hp Hv]]; [ discriminate Hmode | ].
        unfold display_table_format. cbv beta iota zeta delta [bind get_self].
        destruct (compact_display (config self)).
        * eexists. now apply Tables.display_compact_table_run.
        * eexists. now apply Display.display_full_table_run. }
  destruct Hdisplay as [records Hdisplay].
  rewrite (Outcomes.counted_tick env self data records Hrun Hsnap Hdisplay).
  unfold get_current_data. simpl. rewrite Runs.last_store_history.
  repeat split.
Qed.

Lemma tick_stores_snapshot_data_witness :
  fst (on_tick sample_env (init (Some (config_with 2 None)))) = Normal tt /\
  update_count (snd (on_tick sample_env (init (Some (config_with 2 None)))))
    = (update_count (init (Some (config_with 2 None))) + 1)%Z /\
  last_update_time (snd (on_tick sample_env (init (Some (config_with 2 None)))))
    = Some (now_update sample_env) /\
  get_current_data (snd (on_tick sample_env (init (Some (config_with 2 None)))))
    = Some sample_data.
Proof.
  apply (tick_stores_snapshot_data sample_env (init (Some (config_with 2 None)))
           sample_data).
  - reflexivity.
  - reflexivity.
  - right. simpl. lia.
Defined.

(* ================================================================== *)
(** ** More on the reduction                                            *)
(* ================================================================== *)

Module Metrics.

(** The metrics of returned data, with the divisions carried out. *)
Lemma process_orderbook_metrics (self : RealtimeOrderbook) (now : Z)
    (orderbook : OrderBook) (data : OrderbookData) :
  process_orderbook self now orderbook = Normal data ->
  d_best_bid data = first_price (d_bids data) /\
  d_best_ask data = first_price (d_asks data) /\
  d_mid_price data =
    (if Py.truthy (d_best_bid data) && Py.truthy (d_best_ask data)
     then (d_best_bid data + d_best_ask data) / 2 else 0) /\
  d_spread data =
    (if Py.truthy (d_best_bid data) && Py.truthy (d_best_ask data)
     then d_best_ask data - d_best_bid data else 0) /\
  d_spread_percent data =
    (if Py.ltb 0 (d_mid_price data)
     then d_spread data / d_mid_price data * 100 else 0) /\
  d_total_bid_volume data = Py.sum (map lv_volume (d_bids data)) /\
  d_total_ask_volume data = Py.sum (map lv_volume (d_asks data)).
Proof.
  intros H. destruct (Reducer.process_orderbook_normal _ _ _ _ H)
    as [bids [asks [_ [_ [_ ->]]]]].
  unfold reduced. cbv beta iota zeta delta
    [d_best_bid d_best_ask d_mid_price d_spread d_spread_percent d_bids d_asks
     d_total_bid_volume d_total_ask_volume].
  repeat split.
Qed.





End Metrics.



(** X13.  A best price of 0 counts as a missing side: when the best bid
    or the best ask of the reduced data is 0, as it is for an empty side
    but also for a price that rounds to 0, the mid price, the spread and
    the spread percentage are all 0. *)
Theorem zero_best_price_zeroes_metrics (self : RealtimeOrderbook) (now : Z)
    (orderbook : OrderBook) (data : OrderbookData) :
  process_orderbook self now orderbook = Normal data ->
  d_best_bid data == 0 \/ d_best_ask data == 0 ->
  d_mid_price data = 0 /\ d_spread data = 0 /\ d_spread_percent data = 0.
Proof.
  intros Hret Hzero.
  destruct (Metrics.process_orderbook_metrics _ _ _ _ Hret)
    as [_ [_ [Hmid [Hspread [Hpct _]]]]].
  assert (Hfalsy : Py.truthy (d_best_bid data) && Py.truthy (d_best_ask data) = false).
  { destruct Hzero as [Hz | Hz]; apply PyFacts.truthy_false_iff in Hz; rewrite Hz.
    - reflexivity.
    - apply andb_false_r. }
  rewrite Hfalsy in Hmid, Hspread. rewrite Hpct, Hmid, Hspread. repeat split.
Qed.

Lemma zero_best_price_zeroes_metrics_witness :
  d_mid_price
    (returned (process_orderbook (init (Some (config_with 2 None))) 7 tiny_price_book))
    = 0 /\
  d_spread
    (returned (process_orderbook (init (Some (config_with 2 None))) 7 tiny_price_book))
    = 0 /\
  d_spread_percent
    (returned (process_orderbook (init (Some (config_with 2 None))) 7 tiny_price_book))
    = 0.
Proof.
  apply (zero_best_price_zeroes_metrics (init (Some (config_with 2 None))) 7
           tiny_price_book
           (returned (process_orderbook (init (Some (config_with 2 None))) 7
                        tiny_price_book))).
  - reflexivity.
  - left. reflexivity.
Defined.

(* ================================================================== *)
(** ** Configuration updates and creation                               *)
(* ================================================================== *)

Module Config.

Lemma detect_keeps_explicit (cfg : RealtimeOrderbookConfig) :
  Py.truthy_str (connector_type cfg) = true -> _detect_connector_type cfg = cfg.
Proof. intros H. unfold _detect_connector_type. now rewrite H. Qed.

Lemma detect_keeps_names (cfg : RealtimeOrderbookConfig) :
  connector (_detect_connector_type cfg) = connector cfg /\
  trading_pair (_detect_connector_type cfg) = trading_pair cfg.
Proof.
  unfold _detect_connector_type.
  destruct (Py.truthy_str (connector_type cfg)); [ now split | ].
  destruct (detect_by_keyword _ _); now split.
Qed.

(** The table assignment of [__init__] and [update_config]. *)
Lemma tables_consistent (self : RealtimeOrderbook)
    (old : option (list (string * list string))) :
  let cfg := config self in
  let entry := [(connector cfg, [trading_pair cfg])] in
  markets_consistent
    (if String.eqb (connector_type cfg) "perpetual"
     then set_markets [] (Some entry) self
     else set_markets entry
            (match old with Some _ => Some [] | None => None end) self).
Proof.
  simpl. unfold markets_consistent.
  destruct (String.eqb (connector_type (config self)) "perpetual") eqn:E;
    simpl; rewrite E.
  - now split.
  - split; [ reflexivity | ]. destruct old; auto.
Qed.

Lemma update_from_dict_untouched (config_dict : list Setting)
    (c : RealtimeOrderbookConfig) :
  (has_key "connector" config_dict = false ->
   connector (update_from_dict config_dict c) = connector c) /\
  (has_key "trading_pair" config_dict = false ->
   trading_pair (update_from_dict config_dict c) = trading_pair c) /\
  (has_key "connector_type" config_dict = false ->
   connector_type (update_from_dict config_dict c) = connector_type c).
Proof.
  unfold update_from_dict, has_key. revert c.
  induction config_dict as [ | s d IH ]; intros c; simpl.
  - repeat split.
  - destruct (IH (apply_setting c s)) as [H1 [H2 H3]].
    repeat split; intros H; apply orb_false_iff in H; destruct H as [Hs Hd].
    + rewrite (H1 Hd). destruct s; try reflexivity. discriminate Hs.
    + rewrite (H2 Hd). destruct s; try reflexivity. discriminate Hs.
    + rewrite (H3 Hd). destruct s; try reflexivity. discriminate Hs.
Qed.

(** [update_config] in closed form: on a dict of settings it does not
    raise. *)
Lemma update_config_run (new_config : list Setting) (self : RealtimeOrderbook) :
  update_config new_config self =
  (Normal tt,
   let cfg1 := update_from_dict new_config (config self) in
   let cfg2 :=
     if has_key "connector" new_config then _detect_connector_type cfg1 else cfg1 in
   let self2 := set_config cfg2 self in
   let entry := [(connector cfg2, [trading_pair cfg2])] in
   if has_key "connector" new_config || has_key "trading_pair" new_config
      || has_key "connector_type" new_config
   then
     set_log (log self ++ [(INFO, updated_message cfg2)])
       (if String.eqb (connector_type cfg2) "perpetual"
        then set_markets [] (Some entry) self2
        else set_markets entry
               (match derivative_markets self with
                | Some _ => Some []
                | None => None
                end) self2)
   else self2).
Proof.
  unfold update_config. cbv beta iota zeta delta [bind modify get_self ret].
  destruct (has_key "connector" new_config);
    destruct (has_key "trading_pair" new_config);
    destruct (has_key "connector_type" new_config);
    cbv beta iota delta [orb]; try reflexivity;
    cbn [config set_config derivative_markets];
    match goal with
    | |- context [ String.eqb ?a ?b ] => destruct (String.eqb a b)
    end; reflexivity.
Qed.

End Config.

(** X15.  The market tables always agree with the configuration: a new
    monitor registers its trading pair under its connector in the table
    of its kind (spot or derivative) and leaves the other table empty or
    absent, and [update_config], which does not raise on a dict of
    settings, keeps it so for every such dict, whether it names the
    connector, the pair, the kind or none of them. *)
Theorem markets_follow_configuration (initial : option RealtimeOrderbookConfig)
    (new_config : list Setting) (self : RealtimeOrderbook) :
  markets_consistent self ->
  markets_consistent (init initial) /\
  fst (update_config new_config self) = Normal tt /\
  markets_consistent (snd (update_config new_config self)).
Proof.
  intros Hold. split.
  - unfold init, markets_consistent. simpl.
    destruct (String.eqb (connector_type (_detect_connector_type _)) "perpetual");
      auto.
  - rewrite Config.update_config_run. split; [ reflexivity | ].
    cbv beta iota zeta delta [snd].
    destruct (has_key "connector" new_config || has_key "trading_pair" new_config
              || has_key "connector_type" new_config) eqn:Hkeys.
    + match goal with
      | |- markets_consistent (set_log _ (if _ then _ else set_markets _ ?old ?s2)) =>
          pose proof (Config.tables_consistent s2 (derivative_markets self)) as H
      end.
      simpl in H. simpl.
      destruct (String.eqb _ "perpetual"); exact H.
    + apply orb_false_iff in Hkeys. destruct Hkeys as [Hkeys Ht].
      apply orb_false_iff in Hkeys. destruct Hkeys as [Hc Hp].
      rewrite Hc.
      destruct (Config.update_from_dict_untouched new_config (config self))
        as [H1 [H2 H3]].
      unfold markets_consistent in *. simpl.
      rewrite (H1 Hc), (H2 Hp), (H3 Ht). exact Hold.
Qed.

Lemma markets_follow_configuration_witness :
  markets_consistent (init None) /\
  fst (update_config [SetConnector "binance_perpetual"; SetConnectorType "perpetual"]
         (init None)) = Normal tt /\
  markets_consistent
    (snd (update_config
            [SetConnector "binance_perpetual"; SetConnectorType "perpetual"]
            (init None))).
Proof.
  apply (markets_follow_configuration None
           [SetConnector "binance_perpetual"; SetConnectorType "perpetual"]
           (init None)).
  vm_compute. split; [ reflexivity | left; reflexivity ].
Defined.

(** X16.  Renaming the connector never changes the kind of a monitor
    that has one: [update_config], given a dict of settings, runs the
    detection again when the dict names the connector, but with a
    non-empty [connector_type] and no new one in the dict the kind stays
    what it was, whatever the new name. *)
Theorem renamed_connector_keeps_kind (new_config : list Setting)
    (self : RealtimeOrderbook) :
  Py.truthy_str (connector_type (config self)) = true ->
  has_key "connector_type" new_config = false ->
  connector_type (config (snd (update_config new_config self))) =
  connector_type (config self).
Proof.
  intros Hkind Hkey. rewrite Config.update_config_run.
  destruct (Config.update_from_dict_untouched new_config (config self))
    as [_ [_ Htype]].
  specialize (Htype Hkey).
  assert (Hcfg2 :
    connector_type
      (if has_key "connector" new_config
       then _detect_connector_type (update_from_dict new_config (config self))
       else update_from_dict new_config (config self)) =
    connector_type (config self)).
  { destruct (has_key "connector" new_config); [ | exact Htype ].
    rewrite Config.detect_keeps_explicit; [ exact Htype | ].
    now rewrite Htype. }
  cbv beta iota zeta delta [snd].
  destruct (has_key "connector" new_config || has_key "trading_pair" new_config
            || has_key "connector_type" new_config).
  - simpl. destruct (String.eqb _ "perpetual"); exact Hcfg2.
  - exact Hcfg2.
Qed.

Lemma renamed_connector_keeps_kind_witness :
  connector_type
    (config (snd (update_config [SetConnector "binance_perpetual"] (init None)))) =
  connector_type (config (init None)).
Proof.
  apply (renamed_connector_keeps_kind [SetConnector "binance_perpetual"] (init None));
    reflexivity.
Defined.

(** X17.  A monitor created by [create_orderbook_monitor] from a dict
    of settings without ["connector_type"] is a spot monitor whatever its connector is
    called: the class default "spot" counts as an explicit kind, so the
    detection by name does not run. *)
Theorem created_monitor_is_spot (config_dict : list Setting) :
  has_key "connector_type" config_dict = false ->
  connector_type (config (create_orderbook_monitor config_dict)) = "spot"%string /\
  markets (create_orderbook_monitor config_dict) =
    [(connector (update_from_dict config_dict default_config),
      [trading_pair (update_from_dict config_dict default_config)])].
Proof.
  intros Hkey. unfold create_orderbook_monitor, init.
  destruct (Config.update_from_dict_untouched config_dict default_config)
    as [_ [_ Htype]].
  specialize (Htype Hkey). simpl in Htype.
  rewrite Config.detect_keeps_explicit by now rewrite Htype.
  simpl. rewrite Htype. split; reflexivity.
Qed.

Lemma created_monitor_is_spot_witness :
  connector_type
    (config (create_orderbook_monitor [SetConnector "binance_perpetual"]))
    = "spot"%string /\
  markets (create_orderbook_monitor [SetConnector "binance_perpetual"]) =
    [(connector (update_from_dict [SetConnector "binance_perpetual"] default_config),
      [trading_pair
         (update_from_dict [SetConnector "binance_perpetual"] default_config)])].
Proof.
  apply (created_monitor_is_spot [SetConnector "binance_perpetual"]).
  reflexivity.
Defined.

Module Standalone.

Lemma fetch_keeps (env : Environment) (self : RealtimeOrderbook) :
  config (snd (fetch_and_display_orderbook env self)) = config self /\
  is_running (snd (fetch_and_display_orderbook env self)) = is_running self.
Proof.
  destruct (Effects.fetch_effect env self); split; reflexivity.
Qed.

Lemma standalone_loop_keeps (envs : list Environment) (self : RealtimeOrderbook) :
  config (snd (standalone_loop envs self)) = config self /\
  is_running (snd (standalone_loop envs self)) = is_running self.
Proof.
  revert self. induction envs as [ | env envs IH ]; intros self; simpl.
  - split; reflexivity.
  - unfold bind. destruct (fetch_keeps env self) as [Hc Hr].
    destruct (fetch_and_display_orderbook env self) as [[[] | e] self1];
      simpl in *.
    + destruct (IH self1) as [Hc' Hr']. rewrite Hc', Hr'. now split.
    + now split.
Qed.

(** The loop stops at the first iteration that raises. *)
Lemma standalone_loop_stops (envs later : list Environment) (env : Environment)
    (self : RealtimeOrderbook) (e : Exception) :
  fst (standalone_loop envs self) = Normal tt ->
  fst (fetch_and_display_orderbook env (snd (standalone_loop envs self))) = Raised e ->
  standalone_loop (envs ++ env :: later) self =
  (Raised e, snd (fetch_and_display_orderbook env (snd (standalone_loop envs self)))).
Proof.
  revert self. induction envs as [ | env0 envs IH ]; intros self Hok Hraise; simpl in *.
  - unfold bind.
    destruct (fetch_and_display_orderbook env self) as [[[] | e'] self1];
      simpl in *; [ discriminate Hraise | now injection Hraise as -> ].
  - unfold bind in *.
    destruct (fetch_and_display_orderbook env0 self) as [[[] | e'] self1];
      simpl in *; [ now apply IH | discriminate Hok ].
Qed.

End Standalone.

(** X18.  [main] in standalone mode, for a [--type] among the choices of
    the parser: without [--type] the monitor is a spot monitor whatever
    the connector is called, and with [--type] it has the kind given.
    The loop calls the fetch directly, so [main] either runs all its
    iterations and then stops the monitor, or is left by the exception of
    an iteration with the monitor still marked as running. *)
Theorem main_outcome (args : Args) (envs : list Environment) :
  arg_list_connectors args = false ->
  In (arg_type args) ["spot"; "perpetual"; "auto"]%string ->
  exists outcome self,
    main args envs = Some (outcome, self) /\
    connector_type (config self) =
      (if String.eqb (arg_type args) "auto" then "spot" else arg_type args)%string /\
    connector (config self) = arg_connector args /\
    (outcome = Normal tt -> is_running self = false) /\
    (forall e, outcome = Raised e -> is_running self = true).
Proof.
  intros Hlist Htype. unfold main. rewrite Hlist.
  set (start := init (Some (main_config args))).
  assert (Hkind : connector_type (main_config args) =
                  (if String.eqb (arg_type args) "auto" then "spot"
                   else arg_type args)%string).
  { unfold main_config. destruct (String.eqb (arg_type args) "auto"); reflexivity. }
  assert (Hname : connector (main_config args) = arg_connector args).
  { unfold main_config. destruct (String.eqb (arg_type args) "auto"); reflexivity. }
  assert (Hstart : config start = main_config args).
  { unfold start, init. cbn [config].
    apply Config.detect_keeps_explicit. rewrite Hkind.
    simpl in Htype. destruct Htype as [ <- | [ <- | [ <- | [] ] ] ]; reflexivity. }
  destruct (Standalone.standalone_loop_keeps envs start) as [Hcfg Hrun].
  unfold bind.
  destruct (standalone_loop envs start) as [[[] | e] self1]; simpl in *.
  - eexists. eexists. split; [ reflexivity | ]. simpl. rewrite Hcfg, Hstart.
    repeat split; try assumption. intros e H. discriminate H.
  - eexists. eexists. split; [ reflexivity | ]. rewrite Hcfg, Hstart, Hrun.
    repeat split; try assumption. intros H. discriminate H.
Qed.

Lemma main_outcome_witness :
  exists outcome self,
    main sample_args [sample_env; failing_env] = Some (outcome, self) /\
    connector_type (config self) =
      (if String.eqb (arg_type sample_args) "auto" then "spot"
       else arg_type sample_args)%string /\
    connector (config self) = arg_connector sample_args /\
    (outcome = Normal tt -> is_running self = false) /\
    (forall e, outcome = Raised e -> is_running self = true).
Proof.
  apply (main_outcome sample_args [sample_env; failing_env]).
  - reflexivity.
  - simpl. right. right. left. reflexivity.
Defined.

(** X19.  The two tables of the module agree: with no kind set, every
    connector listed by [get_supported_connectors] under "perpetual" is
    detected as perpetual by its name, and every connector listed under
    "spot" as spot. *)
Theorem supported_connectors_detected (cfg : RealtimeOrderbookConfig) :
  connector_type cfg = EmptyString ->
  (In (connector cfg) supported_perpetual ->
   connector_type (_detect_connector_type cfg) = "perpetual"%string) /\
  (In (connector cfg) supported_spot ->
   connector_type (_detect_connector_type cfg) = "spot"%string).
Proof.
  intros Hkind. unfold _detect_connector_type. rewrite Hkind. simpl Py.truthy_str.
  cbv iota. split; intros Hin.
  - unfold supported_perpetual in Hin. simpl in Hin.
    repeat (destruct Hin as [ <- | Hin ]; [ reflexivity | ]). contradiction.
  - unfold supported_spot in Hin. simpl in Hin.
    repeat (destruct Hin as [ <- | Hin ]; [ reflexivity | ]). contradiction.
Qed.

Lemma supported_connectors_detected_witness :
  (In (connector (mkConfig "dydx_perpetual" "BTC-USD" 1 10 EmptyString true true
                    true true false None 4 4 true false false None None None))
      supported_perpetual ->
   connector_type
     (_detect_connector_type
        (mkConfig "dydx_perpetual" "BTC-USD" 1 10 EmptyString true true
           true true false None 4 4 true false false None None None))
   = "perpetual"%string) /\
  (In (connector (mkConfig "dydx_perpetual" "BTC-USD" 1 10 EmptyString true true
                    true true false None 4 4 true false false None None None))
      supported_spot ->
   connector_type
     (_detect_connector_type
        (mkConfig "dydx_perpetual" "BTC-USD" 1 10 EmptyString true true
           true true false None 4 4 true false false None None None))
   = "spot"%string).
Proof.
  apply (supported_connectors_detected
           (mkConfig "dydx_perpetual" "BTC-USD" 1 10 EmptyString true true
              true true false None 4 4 true false false None None None)).
  reflexivity.
Defined.

(** X20.  The standalone loop stops at the first iteration that raises:
    the exception leaves the loop and the iterations after it are never
    run. *)
Theorem standalone_loop_stops_at_exception (envs later : list Environment)
    (env : Environment) (self : RealtimeOrderbook) (e : Exception) :
  fst (standalone_loop envs self) = Normal tt ->
  fst (fetch_and_display_orderbook env (snd (standalone_loop envs self))) = Raised e ->
  standalone_loop (envs ++ env :: later) self =
  (Raised e, snd (fetch_and_display_orderbook env (snd (standalone_loop envs self)))).
Proof.
  apply Standalone.standalone_loop_stops.
Qed.

Lemma standalone_loop_stops_at_exception_witness :
  standalone_loop ([sample_env] ++ failing_env :: [sample_env; sample_env])
    (init (Some csv_config)) =
  (Raised (ProviderError "snapshot"),
   snd (fetch_and_display_orderbook failing_env
          (snd (standalone_loop [sample_env] (init (Some csv_config)))))).
Proof.
  apply (standalone_loop_stops_at_exception [sample_env] [sample_env; sample_env]
           failing_env (init (Some csv_config)) (ProviderError "snapshot"));
    reflexivity.
Defined.

Module CsvRuns.

Lemma headers_app (l1 l2 : list LogRecord) :
  headers (l1 ++ l2) = (headers l1 + headers l2)%nat.
Proof. unfold headers. now rewrite filter_app, length_app. Qed.

Lemma headers_alerts (cfg : RealtimeOrderbookConfig) (data : OrderbookData) :
  headers (map (pair WARNING) (alerts_of cfg data)) = 0%nat.
Proof.
  rewrite Alerts.alerts_of_eq, map_app, headers_app.
  destruct (spread_alert_threshold cfg) as [ts | ];
    destruct (volume_alert_threshold cfg) as [tv | ];
    repeat match goal with
           | |- context [ if ?b then _ else _ ] => destruct b
           end; reflexivity.
Qed.

(** What one tick does to the count and to the headers in CSV mode. *)
Lemma csv_tick_headers (env : Environment) (self : RealtimeOrderbook) :
  json_output (config self) = false ->
  csv_output (config self) = true ->
  (update_count (snd (on_tick env self)) = update_count self /\
   headers (log (snd (on_tick env self))) = headers (log self)) \/
  (update_count (snd (on_tick env self)) = (update_count self + 1)%Z /\
   headers (log (snd (on_tick env self))) =
   (headers (log self) + if (update_count self =? 1)%Z then 1 else 0)%nat).
Proof.
  intros Hjson Hcsv. destruct (is_running self) eqn:Hrun.
  - destruct (get_orderbook_snapshot env self) as [[err | data] | e] eqn:Hsnap.
    + left. rewrite (skipped_tick_run env self err Hrun Hsnap). simpl.
      rewrite headers_app. split; [ reflexivity | ].
      destruct err; simpl; unfold headers; simpl; lia.
    + right.
      rewrite (Outcomes.counted_tick env self data _ Hrun Hsnap
                 (eq_trans
                    (f_equal (fun c => c self)
                       (eq_trans
                          (f_equal (fun b : bool =>
                                      if b then display_json_format data
                                      else if csv_output (config self)
                                           then display_csv_format data
                                           else display_table_format data) Hjson)
                          (f_equal (fun b : bool =>
                                      if b then display_csv_format data
                                      else display_table_format data) Hcsv)))
                    (Tables.display_csv_format_eq data self))).
      simpl. split; [ reflexivity | ].
      rewrite !headers_app, headers_alerts.
      destruct (update_count self =? 1)%Z; unfold headers; simpl; lia.
    + left. rewrite (raised_tick_run env self e Hrun Hsnap). simpl.
      rewrite headers_app. split; [ reflexivity | ].
      unfold headers; simpl; lia.
  - left.
    assert (Htick : on_tick env self = (Normal tt, self)).
    { unfold on_tick. cbv beta iota zeta delta [bind get_self]. now rewrite Hrun. }
    rewrite Htick. split; reflexivity.
Qed.

End CsvRuns.

(** X21.  In CSV mode the header line is logged at most once over any
    run of ticks of a new monitor, whatever the provider does: the log
    holds no header until two updates have been counted and exactly one
    from then on. *)
Theorem csv_header_at_most_once (initial : option RealtimeOrderbookConfig)
    (envs : list Environment) :
  json_output (config (init initial)) = false ->
  csv_output (config (init initial)) = true ->
  headers (log (after_run envs (init initial))) =
  if (2 <=? update_count (after_run envs (init initial)))%Z then 1%nat else 0%nat.
Proof.
  intros Hjson Hcsv.
  assert (H : forall self,
             json_output (config self) = false ->
             csv_output (config self) = true ->
             (0 <= update_count self)%Z ->
             headers (log self) =
               (if (2 <=? update_count self)%Z then 1%nat else 0%nat) ->
             headers (log (after_run envs self)) =
               if (2 <=? update_count (after_run envs self))%Z
               then 1%nat else 0%nat).
  { induction envs as [ | env envs IH ]; intros self Hj Hc Hcount Hheaders.
    - exact Hheaders.
    - rewrite Runs.after_run_cons.
      assert (Hcfg : config (snd (on_tick env self)) = config self)
        by (destruct (tick_effect_of_on_tick env self); reflexivity).
      apply IH; rewrite ?Hcfg; try assumption.
      + destruct (CsvRuns.csv_tick_headers env self Hj Hc) as [[-> _] | [-> _]]; lia.
      + destruct (CsvRuns.csv_tick_headers env self Hj Hc) as [[-> ->] | [-> ->]];
          [ exact Hheaders | ].
        rewrite Hheaders.
        destruct (2 <=? update_count self)%Z eqn:E2;
          destruct (update_count self =? 1)%Z eqn:E1;
          destruct (2 <=? update_count self + 1)%Z eqn:E3;
          try reflexivity;
          try apply Z.leb_le in E2; try apply Z.leb_gt in E2;
          try apply Z.eqb_eq in E1; try apply Z.eqb_neq in E1;
          try apply Z.leb_le in E3; try apply Z.leb_gt in E3; lia. }
  apply H; try assumption; reflexivity.
Qed.

Lemma csv_header_at_most_once_witness :
  headers (log (after_run [sample_env; failing_env; sample_env; sample_env]
                  (init (Some csv_config)))) =
  if (2 <=? update_count
              (after_run [sample_env; failing_env; sample_env; sample_env]
                 (init (Some csv_config))))%Z
  then 1%nat else 0%nat.
Proof.
  apply (csv_header_at_most_once (Some csv_config)
           [sample_env; failing_env; sample_env; sample_env]); reflexivity.
Defined.

Module Stable.

Section Stability.
Context (reverse : bool).






End Stability.

End Stable.



(** X23.  An empty book and the alerts: with both sides empty the data
    has zero totals and a zero spread percentage, so with positive
    thresholds [check_alerts] logs the low-volume alert, at total 0, and
    nothing else. *)
Theorem empty_book_alerts (self : RealtimeOrderbook) (now : Z)
    (orderbook : OrderBook) (data : OrderbookData) (ts tv : Q) :
  process_orderbook self now orderbook = Normal data ->
  d_bids data = [] -> d_asks data = [] ->
  spread_alert_threshold (config self) = Some ts -> 0 < ts ->
  volume_alert_threshold (config self) = Some tv -> 0 < tv ->
  check_alerts data self =
  (Normal tt, set_log (log self ++ [(WARNING, LowVolumeAlert 0 tv)]) self).
Proof.
  intros Hret Hbids Hasks Hs Hts Hv Htv.
  destruct (Metrics.process_orderbook_metrics _ _ _ _ Hret)
    as [Hbb [Hba [Hmid [Hspread [Hpct [Htb Hta]]]]]].
  rewrite Hbids in Hbb, Htb. rewrite Hasks in Hba, Hta. simpl in Hbb, Hba, Htb, Hta.
  rewrite Hbb, Hba in Hmid. simpl in Hmid. rewrite Hmid in Hpct. simpl in Hpct.
  rewrite Tick.check_alerts_run, Alerts.alerts_of_eq, Hs, Hv, Hpct, Htb, Hta.
  assert (H1 : Py.ltb ts 0 = false) by (apply PyFacts.ltb_false_iff; lra).
  assert (H2 : Py.ltb (Py.sum [] + Py.sum []) tv = true)
    by (apply PyFacts.ltb_true_iff; unfold Py.sum; simpl; lra).
  assert (H3 : Py.truthy tv = true) by (apply PyFacts.truthy_true_iff; lra).
  rewrite H1, H2, H3, andb_false_r. reflexivity.
Qed.

Lemma empty_book_alerts_witness :
  check_alerts
    (returned (process_orderbook
                 (init (Some (alert_config (Some (1 # 2)) (Some 20)))) 7 empty_book))
    (init (Some (alert_config (Some (1 # 2)) (Some 20)))) =
  (Normal tt,
   set_log (log (init (Some (alert_config (Some (1 # 2)) (Some 20)))) ++
            [(WARNING, LowVolumeAlert 0 20)])
     (init (Some (alert_config (Some (1 # 2)) (Some 20))))).
Proof.
  apply (empty_book_alerts (init (Some (alert_config (Some (1 # 2)) (Some 20)))) 7
           empty_book
           (returned (process_orderbook
                        (init (Some (alert_config (Some (1 # 2)) (Some 20)))) 7
                        empty_book))
           (1 # 2) 20); reflexivity.
Defined.
